(** * Snowpack trend analysis of the SNOTEL MCP server

    A shallow embedding of [analyze_snowpack_trends]
    (src/snotel_mcp_server/__init__.py, lines 353-499): the
    normalisation of the per-element time series of a station into one
    record per date, and the statistics derived from the records.

    Conventions of the embedding.
    - The awaited call [api_client.get_station_data] is an input of the
      model: either the decoded list of station objects, or the exception
      it raised.
    - JSON objects coming from the remote service are records whose fields
      are [option]s: [None] is a key that is absent, so that every
      [.get(key, default)] of the source has its default case.  For the
      two keys read without a default, [date] and [value], [None] is also
      an explicit JSON null, since [v.get(key)] answers [None] for both.
      A key that is present otherwise carries the JSON type the service
      documents for it.
    - A Python [dict] is an association list in insertion order without
      duplicate keys ([dict_set] overwrites in place, as Python does).
    - A Python [set] is a [gset]; [sorted] is merge sort, preceded by the
      check that decides whether Python's comparison raises.
    - Exceptions are values of [exc]; the [try]/[except Exception] of the
      source is the final [match] of [analyze_snowpack_trends].
    - Numbers are abstract: the analysis is written against the interface
      [PyNumber] of the operators Python applies to them, whose
      arithmetic can raise.  The theorems hold for every implementation
      of the interface; [Q] with exact arithmetic is the instance used to
      run the code on concrete data, and [pynum], which tells an [int]
      from a [float], the one used where the arithmetic overflows.
    - The result is the Python object handed to [json.dumps]; the
      serialisation itself is not modelled. *)

From Stdlib Require Import QArith Qround Qabs Lqa Ascii.
From stdpp Require Import base option list sorting gmap strings pretty.

Close Scope Q_scope.
Set Warnings "-register-all,-clear-no-such-hyp".

(** ** Exceptions *)

Inductive pyexc :=
  | TransportError (msg : string)
  | TypeError (msg : string)
  | KeyError (key : string)
  | ValueError (msg : string)
  | IndexError
  | OverflowError (msg : string)
  | ZeroDivisionError (msg : string).

(** [str(e)], as interpolated in the error response. *)
Definition str_exc (e : pyexc) : string :=
  match e with
  | TransportError msg => msg
  | TypeError msg => msg
  | KeyError key => "'" +:+ key +:+ "'"
  | ValueError msg => msg
  | IndexError => "list index out of range"
  | OverflowError msg => msg
  | ZeroDivisionError msg => msg
  end.

Inductive exc (A : Type) :=
  | Ok (a : A)
  | Raise (e : pyexc).
Arguments Ok {A} a.
Arguments Raise {A} e.

#[global] Instance exc_ret : MRet exc := @Ok.
#[global] Instance exc_bind : MBind exc := λ A B f m,
  match m with
  | Ok a => f a
  | Raise e => Raise e
  end.

(** ** Python dictionaries with string keys *)

Definition pydict (V : Type) := list (string * V).

(** [d[k] = v] *)
Fixpoint dict_set {V} (k : string) (v : V) (d : pydict V) : pydict V :=
  match d with
  | [] => [(k, v)]
  | (k', v') :: d' =>
      if decide (k = k') then (k, v) :: d' else (k', v') :: dict_set k v d'
  end.

(** [d.get(k)], with [None] for a missing key *)
Fixpoint dict_get {V} (k : string) (d : pydict V) : option V :=
  match d with
  | [] => None
  | (k', v') :: d' => if decide (k = k') then Some v' else dict_get k d'
  end.

Definition dict_keys {V} (d : pydict V) : list string := d.*1.

(** ** The numeric interface

    Comparison, equality and [round] with a number of digits that is not
    negative are defined on all numbers.  The arithmetic operators are
    not: Python raises [OverflowError] where an [int] beyond the range
    of [float] meets a [float] or is divided, and [ZeroDivisionError]
    where the divisor is zero. *)

Class PyNumber (num : Type) := {
  py_of_nat : nat → num;            (* an [int] literal, or the result of [len] *)
  py_gt : num → num → bool;         (* [a > b] *)
  py_eq : num → num → bool;         (* [a == b] *)
  py_add : num → num → exc num;     (* [a + b] *)
  py_sub : num → num → exc num;     (* [a - b] *)
  py_truediv : num → num → exc num; (* [a / b] *)
  py_round : num → nat → num;       (* [round(a, ndigits)] *)
}.

(** The facts about the operators that the statistics rely on: [>] is a
    strict order in which being not greater is transitive, [==] is
    reflexive, and rounding a rounded number changes nothing.  Python's
    [int] and [float] satisfy them, NaN excepted. *)
Class PyNumberLaws (num : Type) `{PyNumber num} : Prop := {
  py_gt_irrefl x : py_gt x x = false;
  py_gt_trans x y z : py_gt x y = true → py_gt y z = true → py_gt x z = true;
  py_gt_cotrans x y z :
    py_gt x z = true → py_gt x y = true ∨ py_gt y z = true;
  py_eq_refl x : py_eq x x = true;
  py_round_idem x n : py_round (py_round x n) n = py_round x n;
}.

(** ** Python objects *)

Inductive pyobj {num : Type} :=
  | PyNone
  | PyStr (s : string)
  | PyNum (n : num)
  | PyList (l : list pyobj)
  | PyDict (d : list (string * pyobj)).
Arguments pyobj : clear implicits.

(** ** The response of the remote service *)

(** One point of a series: [{"date": ..., "value": ...}]. *)
Record value_entry {num : Type} := {
  date : option string;
  value : option num;
}.
Arguments value_entry : clear implicits.

(** [{"elementCode": ...}] *)
Record station_element := {
  elementCode : option string;
}.

(** One group: [{"stationElement": {...}, "values": [...]}]. *)
Record data_item {num : Type} := {
  stationElement : option station_element;
  values : option (list (value_entry num));
}.
Arguments data_item : clear implicits.

(** One station: [{"stationTriplet": ..., "data": [...]}]. *)
Record station {num : Type} := {
  stationTriplet : option string;
  data : option (list (data_item num));
}.
Arguments station : clear implicits.

(** ** [sorted(dates)] *)

(** A date read with [v.get("date")] is a string or [None].  Sorting
    compares with [<], which raises [TypeError] between [None] and a
    string.  A list of at most one element is sorted without a
    comparison; in a longer one every element takes part in one, and the
    elements of a set are distinct, so a [None] meets a string.  Which
    of the two is the left operand depends on the iteration order of the
    set, so the message of the exception is either the one below or the
    one with the two type names exchanged. *)
Definition lt_None_str : pyexc :=
  TypeError "'<' not supported between instances of 'NoneType' and 'str'".

Definition py_sorted (l : list (option string)) : exc (list (option string)) :=
  match l with
  | [] | [_] => Ok l
  | _ =>
      match mapM id l with
      | Some ss => Ok (Some <$> merge_sort String.le ss)
      | None => Raise lt_None_str
      end
  end.

Section Model.
Context {num : Type} `{PyNumber num}.

#[local] Abbreviation record := (pydict (pyobj num)).

(** ** Normalisation (lines 389-410) *)

(** [item.get("stationElement", {}).get("elementCode", default)] with the
    empty string as default: the code of a group, empty when the group
    does not name one. *)
Definition item_code (item : data_item num) : string :=
  match stationElement item with
  | Some element => default EmptyString (elementCode element)
  | None => EmptyString
  end.

(** [item.get("values", [])] *)
Definition item_values (item : data_item num) : list (value_entry num) :=
  default [] (values item).

(** Lines 391-396: the loop that fills [element_data]. *)
Definition element_data_of (station_data : list (data_item num))
  : pydict (list (value_entry num)) :=
  foldl (λ element_data item,
           dict_set (item_code item) (item_values item) element_data)
        [] station_data.

(** Lines 398-401: the set of all dates. *)
Definition dates_of (element_data : pydict (list (value_entry num)))
  : gset (option string) :=
  foldl (λ dates '(_, vs), foldl (λ dates v, dates ∪ {[ date v ]}) dates vs)
        ∅ element_data.

Definition date_obj (d : option string) : pyobj num :=
  match d with
  | Some s => PyStr s
  | None => PyNone
  end.

(** [v.get("value")] *)
Definition value_obj (v : value_entry num) : pyobj num :=
  match value v with
  | Some n => PyNum n
  | None => PyNone
  end.

(** Lines 406-409: the scan of one series, left at the first match. *)
Fixpoint scan_values (d : option string) (code : string)
    (vs : list (value_entry num)) (rec : record) : record :=
  match vs with
  | [] => rec
  | v :: vs' =>
      if decide (date v = d) then dict_set code (value_obj v) rec
      else scan_values d code vs' rec
  end.

(** Lines 404-409: the record of one date. *)
Definition build_record (element_data : pydict (list (value_entry num)))
    (d : option string) : record :=
  foldl (λ rec '(code, vs), scan_values d code vs rec)
        [("date", date_obj d)] element_data.

(** Lines 389-410 for one station whose triplet matched: the records
    appended to [measurements]. *)
Definition normalize (station_data : list (data_item num)) : exc (list record) :=
  let element_data := element_data_of station_data in
  ds ← py_sorted (elements (dates_of element_data));
  Ok (build_record element_data <$> (ds : list (option string))).

(** Lines 386-410. *)
Definition parse_measurements (station_triplet : string)
    (stations : list (station num)) : exc (list record) :=
  foldl (λ acc st,
           measurements ← acc;
           if decide (stationTriplet st = Some station_triplet)
           then recs ← normalize (default [] (data st));
                Ok (measurements ++ recs)
           else Ok measurements)
        (Ok []) stations.

(** ** The statistics (lines 415-494) *)

#[local] Abbreviation point := (pyobj num * num)%type.

(** A value stored under [key] that is neither [None] nor a number passes
    the filter of the source and then makes [max], [round] or the
    subtraction raise [TypeError], whatever its type.  Normalisation
    stores such a value under the key [date] only, and the analysis
    reads [SNWD] and [WTEQ]. *)
Definition not_a_number : pyexc :=
  TypeError "unsupported operand type".

(** Lines 429-430 and 449-450:
    [[(r["date"], r[key]) for r in measurements
      if key in r and r[key] is not None]] *)
Fixpoint series (key : string) (measurements : list record) : exc (list point) :=
  match measurements with
  | [] => Ok []
  | r :: measurements' =>
      match dict_get key r with
      | None | Some PyNone => series key measurements'
      | Some (PyNum n) =>
          match dict_get "date" r with
          | Some d => rest ← series key measurements'; Ok ((d, n) :: rest)
          | None => Raise (KeyError "date")
          end
      | Some _ => Raise not_a_number
      end
  end.

(** [max(l)]: the first element is kept until a strictly greater one is met. *)
Definition py_max (l : list num) : exc num :=
  match l with
  | [] => Raise (ValueError "max() arg is an empty sequence")
  | x :: l' => Ok (foldl (λ m y, if py_gt y m then y else m) x l')
  end.

(** [sum(l)], which starts from the integer 0 and stops at the first
    addition that raises. *)
Definition py_sum (l : list num) : exc num :=
  foldl (λ acc x, total ← acc; py_add total x) (Ok (py_of_nat 0)) l.

(** [len(l)] as a number. *)
Definition py_len {A} (l : list A) : num := py_of_nat (length l).

(** [l[i]] for a non-negative index. *)
Definition py_index {A} (l : list A) (i : nat) : exc A :=
  match l !! i with
  | Some x => Ok x
  | None => Raise IndexError
  end.

(** [[d for d in s if d[1] == m][0]] *)
Definition first_equal (m : num) (s : list point) : exc point :=
  py_index (filter (λ d, py_eq d.2 m) s) 0.

(** Lines 433-446: the dictionary stored under [snow_depth_analysis]. *)
Definition snow_depth_analysis (snow_depths : list point) : exc (pyobj num) :=
  let depths := snow_depths.*2 in
  peak_depth ← py_max depths;
  peak ← first_equal peak_depth snow_depths;
  total ← py_sum depths;
  average ← py_truediv total (py_len depths);
  Ok (PyDict
        [("peak_depth",
          PyDict [("value", PyNum (py_round peak_depth 1));
                  ("date", peak.1);
                  ("unit", PyStr "inches")]);
         ("average_depth", PyNum (py_round average 1));
         ("days_with_snow",
          PyNum (py_len (filter (λ d, py_gt d (py_of_nat 0)) depths)));
         ("total_observations", PyNum (py_len depths))]).

(** Lines 453-465: the dictionary stored under [swe_analysis]. *)
Definition swe_analysis (swes : list point) : exc (pyobj num) :=
  let swe_values := swes.*2 in
  peak_swe ← py_max swe_values;
  peak ← first_equal peak_swe swes;
  total ← py_sum swe_values;
  average ← py_truediv total (py_len swe_values);
  Ok (PyDict
        [("peak_swe",
          PyDict [("value", PyNum (py_round peak_swe 2));
                  ("date", peak.1);
                  ("unit", PyStr "inches")]);
         ("average_swe", PyNum (py_round average 2));
         ("total_observations", PyNum (py_len swe_values))]).

(** Lines 470-476: the body of the loop over [range(1, len(snow_depths))].
    An event is the pair of its date and its amount. *)
Definition snowfall_step (snow_depths : list point)
    (acc : exc (list point)) (i : nat) : exc (list point) :=
  snowfall_days ← acc;
  prev ← py_index snow_depths (i - 1);
  curr ← py_index snow_depths i;
  if py_gt curr.2 prev.2
  then increase ← py_sub curr.2 prev.2;
       Ok (snowfall_days ++ [(curr.1, py_round increase 1)])
  else Ok snowfall_days.

(** Lines 468-476. *)
Definition snowfall_days (snow_depths : list point) : exc (list point) :=
  foldl (snowfall_step snow_depths) (Ok []) (seq 1 (length snow_depths - 1)).

(** [{"date": ..., "amount": ...}] *)
Definition event_obj (s : point) : pyobj num :=
  PyDict [("date", s.1); ("amount", PyNum s.2)].

(** Lines 479-494: the dictionary stored under [snowfall_analysis]. *)
Definition snowfall_analysis (events : list point) : exc (pyobj num) :=
  let snowfall_amounts := events.*2 in
  total_snowfall ← py_sum snowfall_amounts;
  max_daily ← py_max snowfall_amounts;
  max_daily_record ← first_equal max_daily events;
  average ← py_truediv total_snowfall (py_len events);
  Ok (PyDict
        [("total_new_snow", PyNum (py_round total_snowfall 1));
         ("snow_days", PyNum (py_len events));
         ("biggest_day",
          PyDict [("amount", PyNum (py_round max_daily 1));
                  ("date", max_daily_record.1);
                  ("unit", PyStr "inches")]);
         ("average_per_snow_day", PyNum (py_round average 1));
         ("snowfall_events", PyList (event_obj <$> events))]).

(** [if l: result[key] = ...], for the three sub-reports. *)
Definition set_if_nonempty {A} (key : string) (l : list A)
    (report : list A → exc (pyobj num)) (result : record) : exc record :=
  match l with
  | [] => Ok result
  | _ => sub ← report l; Ok (dict_set key sub result)
  end.

(** Lines 415-494: the report on a non-empty list of measurements. *)
Definition trend_summary (station_triplet start_date end_date : string)
    (measurements : list record) : exc (pyobj num) :=
  let result : record :=
    [("station_triplet", PyStr station_triplet);
     ("period", PyDict [("start_date", PyStr start_date);
                        ("end_date", PyStr end_date)]);
     ("total_records", PyNum (py_len measurements));
     ("snow_depth_analysis", PyDict []);
     ("swe_analysis", PyDict []);
     ("snowfall_analysis", PyDict []);
     ("measurements", PyList (PyDict <$> measurements))] in
  snow_depths ← series "SNWD" measurements;
  result ← set_if_nonempty "snow_depth_analysis" snow_depths
             snow_depth_analysis result;
  swes ← series "WTEQ" measurements;
  result ← set_if_nonempty "swe_analysis" swes swe_analysis result;
  events ← snowfall_days snow_depths;
  result ← set_if_nonempty "snowfall_analysis" events
             snowfall_analysis result;
  Ok (PyDict result).

(** [{"error": msg}] *)
Definition error_obj (msg : string) : pyobj num :=
  PyDict [("error", PyStr msg)].

(** Lines 382-496, inside the [try]. *)
Definition analyze_body (stations : list (station num))
    (station_triplet start_date end_date : string) : exc (pyobj num) :=
  match stations with
  | [] => Ok (error_obj ("No data available for analysis: " +:+ station_triplet))
  | _ =>
      measurements ← parse_measurements station_triplet stations;
      match measurements with
      | [] => Ok (error_obj "No measurements found for analysis")
      | _ => trend_summary station_triplet start_date end_date measurements
      end
  end.

(** Lines 377-499.  [response] is the outcome of
    [await api_client.get_station_data(...)]. *)
Definition analyze_snowpack_trends (response : exc (list (station num)))
    (station_triplet start_date end_date : string) : pyobj num :=
  match stations ← response;
        analyze_body stations station_triplet start_date end_date with
  | Ok result => result
  | Raise e => error_obj ("Error analyzing snowpack trends: " +:+ str_exc e)
  end.

End Model.

(** ** Exact rational numbers as an instance of the interface

    A JSON number denotes a rational, and the instance computes with it
    exactly.  Python agrees as long as every intermediate result is an
    [int] or a [float] that is represented exactly and lies within the
    range of [float]; the rounding error of binary floating point is
    outside this instance, and so is the overflow of the conversion of a
    large [int], which the instance of [pynum] below adds.  [round]
    rounds half to even, as Python does on the exact value of its
    argument. *)

Definition round_half_even (x : Q) : Z :=
  let f := Qfloor x in
  match Qcompare (x - inject_Z f)%Q (1 # 2)%Q with
  | Lt => f
  | Gt => (f + 1)%Z
  | Eq => if Z.even f then f else (f + 1)%Z
  end.

Definition Q_round (x : Q) (ndigits : nat) : Q :=
  let scale := inject_Z (10 ^ Z.of_nat ndigits) in
  Qred (inject_Z (round_half_even (x * scale)%Q) / scale)%Q.

#[global] Instance Q_number : PyNumber Q := {|
  py_of_nat n := inject_Z (Z.of_nat n);
  py_gt a b := negb (Qle_bool a b);
  py_eq a b := Qeq_bool a b;
  py_add a b := Ok (Qred (a + b)%Q);
  py_sub a b := Ok (Qred (a - b)%Q);
  py_truediv a b :=
    if Qeq_bool b 0 then Raise (ZeroDivisionError "division by zero")
    else Ok (Qred (a / b)%Q);
  py_round := Q_round;
|}.

(** ** Python's [int] and [float] as an instance of the interface

    An [int] is an integer of any size.  A [float] is given by the
    rational it denotes and the instance computes with it exactly: the
    rounding of a [float] result and its overflow to infinity are outside
    this instance.  What it adds to the rational instance is the
    conversion of an [int] operand to [float], which Python performs
    where an [int] meets a [float] and in every true division, and which
    raises [OverflowError] beyond the range of [float]. *)

Inductive pynum :=
  | PyInt (z : Z)
  | PyFloat (q : Q).

(** The least magnitude that rounds to no [float]: the middle between
    the greatest [float] and [2^1024]. *)
Definition float_overflow : Z := 2 ^ 1024 - 2 ^ 970.

(** [float(z)] *)
Definition to_float (z : Z) : exc Q :=
  if (Z.abs z <? float_overflow)%Z then Ok (inject_Z z)
  else Raise (OverflowError "int too large to convert to float").

Definition as_float (x : pynum) : exc Q :=
  match x with
  | PyInt z => to_float z
  | PyFloat q => Ok q
  end.

(** The rational a number denotes. *)
Definition pynum_value (x : pynum) : Q :=
  match x with
  | PyInt z => inject_Z z
  | PyFloat q => q
  end.

(** [a + b] and [a - b]: exact on two [int]s, in [float] otherwise. *)
Definition pynum_arith (int_op : Z → Z → Z) (float_op : Q → Q → Q)
    (a b : pynum) : exc pynum :=
  match a, b with
  | PyInt x, PyInt y => Ok (PyInt (int_op x y))
  | _, _ => x ← as_float a; y ← as_float b; Ok (PyFloat (Qred (float_op x y)))
  end.

(** [a / b]: always a [float]. *)
Definition pynum_truediv (a b : pynum) : exc pynum :=
  match a, b with
  | PyInt x, PyInt y =>
      if (y =? 0)%Z then Raise (ZeroDivisionError "division by zero")
      else
        let q := (inject_Z x / inject_Z y)%Q in
        if Qle_bool (inject_Z float_overflow) (Qabs q)
        then Raise (OverflowError "integer division result too large for a float")
        else Ok (PyFloat (Qred q))
  | _, _ =>
      x ← as_float a; y ← as_float b;
      if Qeq_bool y 0 then Raise (ZeroDivisionError "float division by zero")
      else Ok (PyFloat (Qred (x / y)%Q))
  end.

#[global] Instance pynum_number : PyNumber pynum := {|
  py_of_nat n := PyInt (Z.of_nat n);
  py_gt a b := negb (Qle_bool (pynum_value a) (pynum_value b));
  py_eq a b := Qeq_bool (pynum_value a) (pynum_value b);
  py_add := pynum_arith Z.add Qplus;
  py_sub := pynum_arith Z.sub Qminus;
  py_truediv := pynum_truediv;
  py_round a ndigits :=
    match a with
    | PyInt z => PyInt z
    | PyFloat q => PyFloat (Q_round q ndigits)
    end;
|}.

(** Concrete responses. *)
Definition entry (d : string) (x : Q) : value_entry Q :=
  {| date := Some d; value := Some x |}.

Definition group (code : string) (vs : list (value_entry Q)) : data_item Q :=
  {| stationElement := Some {| elementCode := Some code |}; values := Some vs |}.

Definition station_of (triplet : string) (groups : list (data_item Q)) : station Q :=
  {| stationTriplet := Some triplet; data := Some groups |}.

(** * Vocabulary of the statements *)

(** Two dictionaries that differ at most in the value held for [code]. *)
Definition agree_except {V} (code : string) (d d' : pydict V) : Prop :=
  Forall2 (λ x y, x.1 = y.1 ∧ (x.1 ≠ code → x.2 = y.2)) d d'.

(** The first entry of a series that carries the date [d]. *)
Definition first_entry {num} (d : option string) (vs : list (value_entry num))
  : option (value_entry num) :=
  snd <$> list_find (λ v, date v = d) vs.

(** [a < b] for two dates: both are strings, in strict lexical order. *)
Definition date_lt (a b : option string) : Prop :=
  match a, b with
  | Some x, Some y => strict String.le x y
  | _, _ => False
  end.

(** The pairs of neighbours of a list, in order. *)
Definition adjacent {A} (l : list A) : list (A * A) := zip l (tail l).

(** A pair (earlier, later) of depth observations whose depth rises. *)
Definition rising {num} `{PyNumber num}
    (pc : (pyobj num * num) * (pyobj num * num)) : Prop :=
  py_gt pc.2.2 pc.1.2.

(** The event of a pair: the date of the later observation and the
    increase, rounded to one decimal; the exception of the subtraction
    when it raises. *)
Definition event_of {num} `{PyNumber num}
    (pc : (pyobj num * num) * (pyobj num * num)) : exc (pyobj num * num) :=
  increase ← py_sub pc.2.2 pc.1.2; Ok (pc.2.1, py_round increase 1).

(** [sum(l) / len(l)] *)
Definition mean {num} `{PyNumber num} (l : list num) : exc num :=
  total ← py_sum l; py_truediv total (py_len l).

(** An exception that an addition, a subtraction or a division of two
    numbers raises. *)
Definition raised_by_arithmetic (num : Type) `{PyNumber num} (e : pyexc) : Prop :=
  ∃ a b, py_add a b = Raise e ∨ py_sub a b = Raise e ∨ py_truediv a b = Raise e.

(** [o.get(key)] on an object that is a dictionary. *)
Definition obj_get {num} (key : string) (o : pyobj num) : option (pyobj num) :=
  match o with
  | PyDict d => dict_get key d
  | _ => None
  end.

(** A record with no observation under [key]: the key is absent, or holds
    [None]. *)
Definition no_value {num} (key : string) (r : pydict (pyobj num)) : Prop :=
  dict_get key r = None ∨ dict_get key r = Some PyNone.

(** The dates of a list of records, as read back with [r.get("date")]. *)
Definition record_dates {num} (recs : list (pydict (pyobj num)))
  : list (option (pyobj num)) :=
  dict_get "date" <$> recs.

(** [a < b] for two dates read back from records. *)
Definition obj_date_lt {num} (a b : option (pyobj num)) : Prop :=
  match a, b with
  | Some (PyStr x), Some (PyStr y) => strict String.le x y
  | _, _ => False
  end.

(** A group without element code: [stationElement] or its [elementCode]
    is missing. *)
Definition lacks_code {num} (g : data_item num) : Prop :=
  match stationElement g with
  | Some element => elementCode element = None
  | None => True
  end.

(** A group that names its element code. *)
Definition has_code {num} (g : data_item num) : bool :=
  match stationElement g with
  | Some element => bool_decide (is_Some (elementCode element))
  | None => false
  end.

(** What is left of a response once, in the words of the specification,
    the malformed entries are skipped: the groups without element code
    and the entries without date are gone. *)
Definition drop_malformed {num} (sd : list (data_item num)) : list (data_item num) :=
  (λ g, {| stationElement := stationElement g;
           values := filter (λ v, is_Some (date v)) <$> values g |})
  <$> filter (λ g, has_code g) sd.

(** The kind of a Python object, and the shape of a dictionary: its keys
    with the kinds of their values. *)
Inductive kind := KNone | KStr | KNum | KList | KDict.

Definition kind_of {num} (o : pyobj num) : kind :=
  match o with
  | PyNone => KNone
  | PyStr _ => KStr
  | PyNum _ => KNum
  | PyList _ => KList
  | PyDict _ => KDict
  end.

Definition shape {num} (o : pyobj num) : list (string * kind) :=
  match o with
  | PyDict d => prod_map id kind_of <$> d
  | _ => []
  end.

(** What normalisation guarantees of a record: it has the key [date],
    and under any other key it holds a number or [None]. *)
Definition well_formed_record {num} (r : pydict (pyobj num)) : Prop :=
  is_Some (dict_get "date" r) ∧
  ∀ key, key ≠ "date" →
    match dict_get key r with
    | Some (PyStr _) | Some (PyList _) | Some (PyDict _) => False
    | _ => True
    end.

(** * The client of the remote service and the station tools

    A shallow embedding of [SnotelAPIClient] (lines 31-101) and of the
    tools [find_snotel_stations] (lines 108-169) and [get_station_info]
    (lines 172-220).

    - The HTTP exchange of [_request] (lines 48-53: the GET, the status
      check and the decoding of the body) is an input of the model, a
      function from the timeout, the URL and the query parameters to the
      decoded body or to the exception raised.
    - The body of a response is a list of objects, or an object that may
      hold such a list under [stations].
    - The text Python prints for a number, and [str.upper], are an
      interface, like the arithmetic.
    - The defaults of the parameters of a tool are applied by its caller;
      the model takes every parameter explicitly. *)

(** ** Strings *)

(** ["\n"] *)
Definition nl : string := String (Ascii.ascii_of_nat 10) EmptyString.

(** [s.lstrip(c)] for a one-character [c] *)
Fixpoint py_lstrip (c : Ascii.ascii) (s : string) : string :=
  match s with
  | String a s' => if decide (a = c) then py_lstrip c s' else s
  | EmptyString => EmptyString
  end.

(** [s.rstrip(c)] for a one-character [c] *)
Fixpoint py_rstrip (c : Ascii.ascii) (s : string) : string :=
  match s with
  | EmptyString => EmptyString
  | String a s' =>
      match py_rstrip c s' with
      | EmptyString => if decide (a = c) then EmptyString else String a EmptyString
      | r => String a r
      end
  end.

(** [s.split(c)] for a one-character [c] *)
Fixpoint py_split (c : Ascii.ascii) (s : string) : list string :=
  match s with
  | EmptyString => [EmptyString]
  | String a s' =>
      if decide (a = c) then EmptyString :: py_split c s'
      else match py_split c s' with
           | p :: ps => String a p :: ps
           | [] => [String a EmptyString]
           end
  end.

(** The truth value of a string: it is not empty. *)
Definition str_bool (s : string) : bool :=
  match s with
  | EmptyString => false
  | String _ _ => true
  end.

(** ** The text interface *)

(** Printing a number can raise: the format [f] converts an [int] to
    [float] and raises [OverflowError] beyond its range, and [str]
    refuses an [int] of more digits than the interpreter allows. *)
Class PyText (num : Type) := {
  py_bool : num → bool;       (* the truth value of a number *)
  py_str : num → exc string;  (* [str(a)], the text of [{a}] in an f-string *)
  py_format_f : bool → nat → num → exc string;
                              (* [{a:.nf}], and [{a:,.nf}] when the flag is set *)
  py_upper : string → string; (* [s.upper()] *)
}.

(** ** The responses of the [stations] endpoint *)

Module Meta.

(** The description of one station. *)
Record station {num : Type} := {
  stationTriplet : option string;
  name : option string;
  latitude : option num;
  longitude : option num;
  elevation : option num;
  state : option string;
  networkCd : option string;
  countyName : option string;
}.
Arguments station : clear implicits.

End Meta.

(** The decoded body of a response. *)
Inductive reply (A : Type) :=
  | ReplyList (l : list A)
  | ReplyObject (stations : option (list A)).
Arguments ReplyList {A} l.
Arguments ReplyObject {A} stations.

(** [data if isinstance(data, list) else data.get("stations", [])] *)
Definition stations_of {A} (data : reply A) : list A :=
  match data with
  | ReplyList l => l
  | ReplyObject stations => default [] stations
  end.

(** ** The client (lines 31-101) *)

Module SnotelAPIClient.

Record t := {
  base_url : string;
  timeout : Z;
}.

(** Lines 34-36. *)
Definition init (base_url : string) (timeout : Z) : t :=
  {| base_url := py_rstrip "/"%char base_url; timeout := timeout |}.

Section Client.
Context {num : Type} `{PyNumber num} `{PyText num}.

#[local] Abbreviation params := (pydict (pyobj num)).

(** The HTTP exchange: timeout, URL and query parameters to the decoded
    body. *)
Definition transport (A : Type) : Type := Z → string → params → exc A.

(** Lines 38-53. *)
Definition _request {A} (self : t) (http : transport A)
    (endpoint : string) (params : option params) : exc A :=
  let url := base_url self +:+ "/" +:+ py_lstrip "/"%char endpoint in
  let request_params := default [] params in
  http (timeout self) url request_params.

(** Lines 55-76. *)
Definition get_stations (self : t) (http : transport (reply (Meta.station num)))
    (state : option string) (network : string) (lat lon radius : option num)
  : exc (list (Meta.station num)) :=
  let network_only : params := dict_set "networks" (PyStr network) [] in
  let params : params :=
    match state with
    | Some (String _ _ as state) =>
        dict_set "stationTriplets"
          (PyStr ("*:" +:+ py_upper state +:+ ":" +:+ network)) []
    | _ =>
        match lat, lon, radius with
        | Some lat, Some lon, Some radius =>
            if py_bool lat && py_bool lon && py_bool radius then
              dict_set "logicalAnd" (PyStr "true")
                (dict_set "networks" (PyStr network)
                   (dict_set "radius" (PyNum radius)
                      (dict_set "longitude" (PyNum lon)
                         (dict_set "latitude" (PyNum lat) []))))
            else network_only
        | _, _, _ => network_only
        end
    end in
  data ← _request self http "stations" (Some params);
  Ok (stations_of data).

(** An optional string as a query parameter. *)
Definition str_obj (s : option string) : pyobj num :=
  match s with
  | Some s => PyStr s
  | None => PyNone
  end.

(** Lines 78-101. *)
Definition get_station_data (self : t) (http : transport (reply (station num)))
    (station_triplet start_date end_date : string)
    (elements : option (list string)) (duration : option string)
  : exc (list (station num)) :=
  let elements := default ["SNWD"; "WTEQ"; "TOBS"; "PREC"] elements in
  let params : params :=
    [("stationTriplets", PyStr station_triplet);
     ("elements", PyStr (String.concat "," elements));
     ("beginDate", PyStr start_date);
     ("endDate", PyStr end_date);
     ("ordinal", PyStr "1");
     ("duration", str_obj duration)] in
  data ← _request self http "data" (Some params);
  Ok (stations_of data).

End Client.
End SnotelAPIClient.

(** Lines 27-28 and 105. *)
Definition API_BASE : string :=
  "https://wcc.sc.egov.usda.gov/awdbRestApi/services/v1".
Definition DEFAULT_TIMEOUT : Z := 30.
Definition api_client : SnotelAPIClient.t :=
  SnotelAPIClient.init API_BASE DEFAULT_TIMEOUT.

(** ** The station tools *)

Section Tools.
Context {num : Type} `{PyNumber num} `{PyText num}.

(** [{x}] for an optional number *)
Definition str_opt (x : option num) : exc string :=
  match x with
  | Some a => py_str a
  | None => Ok "None"
  end.

(** The truth value of an optional number. *)
Definition opt_bool (x : option num) : bool :=
  match x with
  | Some a => py_bool a
  | None => false
  end.

(** Lines 149-161: the body of the loop over the stations listed. *)
Definition station_lines (result : string) (station : Meta.station num)
  : exc string :=
  let triplet := default EmptyString (Meta.stationTriplet station) in
  let name := default "Unknown" (Meta.name station) in
  let lat := default (py_of_nat 0) (Meta.latitude station) in
  let lon := default (py_of_nat 0) (Meta.longitude station) in
  let elev := default (py_of_nat 0) (Meta.elevation station) in
  let county := default EmptyString (Meta.countyName station) in
  let result := result +:+ ("• **" +:+ name +:+ "** (" +:+ triplet +:+ ")" +:+ nl) in
  lat_text ← py_format_f false 4 lat;
  lon_text ← py_format_f false 4 lon;
  let result :=
    result +:+ ("  Location: " +:+ lat_text +:+ ", " +:+ lon_text +:+ nl) in
  elev_text ← py_format_f true 0 elev;
  let result := result +:+ ("  Elevation: " +:+ elev_text +:+ " ft" +:+ nl) in
  let result :=
    if str_bool county then result +:+ ("  County: " +:+ county +:+ nl)
    else result in
  Ok (result +:+ nl).

(** Lines 141-146: the heading of the list. *)
Definition stations_heading (state : option string)
    (latitude longitude radius_miles : option num) (found : nat) : exc string :=
  let result := "Found " +:+ pretty found +:+ " SNOTEL stations" in
  result ← match state with
           | Some (String _ _ as state) => Ok (result +:+ (" in " +:+ state))
           | _ =>
               if opt_bool latitude && opt_bool longitude then
                 radius_text ← str_opt radius_miles;
                 lat_text ← str_opt latitude;
                 lon_text ← str_opt longitude;
                 Ok (result +:+ (" within " +:+ radius_text +:+ " miles of ("
                                 +:+ lat_text +:+ ", " +:+ lon_text +:+ ")"))
               else Ok result
           end;
  Ok (result +:+ (":" +:+ nl +:+ nl)).

(** Lines 148-161: the loop over the stations listed. *)
Definition stations_lines (result : string) (stations : list (Meta.station num))
  : exc string :=
  foldl (λ acc station, result ← acc; station_lines result station)
        (Ok result) stations.

(** Lines 129-169. *)
Definition find_snotel_stations
    (http : SnotelAPIClient.transport (reply (Meta.station num)))
    (state : option string) (latitude longitude radius_miles : option num)
    (network : string) : string :=
  match
    stations ← SnotelAPIClient.get_stations api_client http state network
                 latitude longitude radius_miles;
    match stations with
    | [] => Ok "No SNOTEL stations found with the given criteria."
    | _ =>
        result ← stations_heading state latitude longitude radius_miles
                   (length stations);
        result ← stations_lines result (take 20 stations);
        Ok (if decide (20 < length stations) then
              result +:+ ("... and " +:+ pretty (length stations - 20)
                          +:+ " more stations" +:+ nl)
            else result)
    end
  with
  | Ok result => result
  | Raise e => "Error finding stations: " +:+ str_exc e
  end.

(** Lines 192-196: the first station whose triplet is the requested one. *)
Fixpoint matching_station (station_triplet : string)
    (stations : list (Meta.station num)) : option (Meta.station num) :=
  match stations with
  | [] => None
  | s :: stations' =>
      if decide (Meta.stationTriplet s = Some station_triplet) then Some s
      else matching_station station_triplet stations'
  end.

(** Lines 201-217: the description of the station found. *)
Definition station_description (station_triplet : string)
    (station : Meta.station num) : exc string :=
  let name := default "Unknown" (Meta.name station) in
  let lat := default (py_of_nat 0) (Meta.latitude station) in
  let lon := default (py_of_nat 0) (Meta.longitude station) in
  let elev := default (py_of_nat 0) (Meta.elevation station) in
  let state := default EmptyString (Meta.state station) in
  let network := default EmptyString (Meta.networkCd station) in
  let county := default EmptyString (Meta.countyName station) in
  let result := "**" +:+ name +:+ "** (" +:+ station_triplet +:+ ")" +:+ nl +:+ nl in
  lat_text ← py_format_f false 4 lat;
  lon_text ← py_format_f false 4 lon;
  let result :=
    result +:+ ("• **Location**: " +:+ lat_text +:+ ", " +:+ lon_text +:+ nl) in
  elev_text ← py_format_f true 0 elev;
  let result := result +:+ ("• **Elevation**: " +:+ elev_text +:+ " feet" +:+ nl) in
  let result := result +:+ ("• **State**: " +:+ state +:+ nl) in
  let result := result +:+ ("• **Network**: " +:+ network +:+ nl) in
  Ok (if str_bool county then result +:+ ("• **County**: " +:+ county +:+ nl)
      else result).

(** Lines 183-220. *)
Definition get_station_info
    (http : SnotelAPIClient.transport (reply (Meta.station num)))
    (station_triplet : string) : string :=
  let parts := py_split ":"%char station_triplet in
  if decide (length parts ≠ 3) then
    "Invalid station triplet format. Expected format: 'id:state:network'"
  else
    match
      state ← py_index parts 1;
      network ← py_index parts 2;
      stations ← SnotelAPIClient.get_stations api_client http (Some state)
                   network None None None;
      match matching_station station_triplet stations with
      | None => Ok ("Station " +:+ station_triplet +:+ " not found")
      | Some station => station_description station_triplet station
      end
    with
    | Ok result => result
    | Raise e => "Error getting station info: " +:+ str_exc e
    end.

End Tools.

(** ** The text of exact rationals

    The instance prints a rational as Python prints the [int] or the
    [float] it denotes: an integer without a fraction, any other number
    with the digits of its decimal expansion; the exponent notation of
    very large and very small floats and the shortest-digits search of
    [repr] on inexact floats are outside this instance, and so are the
    exceptions of printing an [int] beyond the range of [float].
    [{a:.nf}] rounds half to even on the exact value, as Python does.
    [upper] acts on the letters [a] to [z]. *)

Fixpoint zeros (n : nat) : string :=
  match n with
  | O => EmptyString
  | S n' => String "0" (zeros n')
  end.

(** The decimal digits of a natural number, at least [width] of them. *)
Definition digits (width : nat) (n : Z) : string :=
  let s : string := pretty (Z.to_N n) in
  zeros (width - String.length s) +:+ s.

(** A comma before every group of three digits, on the reversed digits. *)
Fixpoint group3 (k : nat) (l : list ascii) : list ascii :=
  match l with
  | [] => []
  | a :: l' =>
      match k with
      | O => "," %char :: a :: group3 2 l'
      | S k' => a :: group3 k' l'
      end
  end.

Definition thousands (s : string) : string :=
  String.string_of_list_ascii (rev (group3 3 (rev (String.list_ascii_of_string s)))).

Definition Q_format_f (comma : bool) (ndigits : nat) (x : Q) : string :=
  let scale := (10 ^ Z.of_nat ndigits)%Z in
  let k := Z.abs (round_half_even (x * inject_Z scale)%Q) in
  let whole := digits 1 (k / scale) in
  (if Qle_bool 0 x then EmptyString else "-")
  +:+ (if comma then thousands whole else whole)
  +:+ match ndigits with
      | O => EmptyString
      | _ => "." +:+ digits ndigits (k mod scale)
      end.

(** The number of decimals of a rational: the least [n], up to the fuel,
    with an integral [x * 10^n]. *)
Fixpoint decimals (fuel n : nat) (x : Q) : nat :=
  match fuel with
  | O => n
  | S fuel' =>
      if (Qden (Qred (x * inject_Z (10 ^ Z.of_nat n))%Q) =? 1)%positive then n
      else decimals fuel' (S n) x
  end.

Definition Q_str (x : Q) : string := Q_format_f false (decimals 17 0 x) x.

Definition ascii_upper (a : ascii) : ascii :=
  let n := N_of_ascii a in
  if ((97 <=? n) && (n <=? 122))%N then ascii_of_N (n - 32) else a.

Definition ascii_upper_string (s : string) : string :=
  String.string_of_list_ascii (ascii_upper <$> String.list_ascii_of_string s).

#[global] Instance Q_text : PyText Q := {|
  py_bool x := negb (Qeq_bool x 0);
  py_str x := Ok (Q_str x);
  py_format_f comma ndigits x := Ok (Q_format_f comma ndigits x);
  py_upper := ascii_upper_string;
|}.

(** A concrete station description. *)
Definition station_named (triplet name : string) (lat lon elev : Q)
    (state network county : string) : Meta.station Q :=
  {| Meta.stationTriplet := Some triplet; Meta.name := Some name;
     Meta.latitude := Some lat; Meta.longitude := Some lon;
     Meta.elevation := Some elev; Meta.state := Some state;
     Meta.networkCd := Some network; Meta.countyName := Some county |}.

(** A service that answers every request with the same body. *)
Definition always {A} (body : exc A) : SnotelAPIClient.transport (num := Q) A :=
  λ _ _ _, body.

(** A service that knows the stations of one pattern of triplets, and
    answers every other request with an empty list. *)
Definition answering {A} (pattern : string) (stations : list A)
  : SnotelAPIClient.transport (num := Q) (reply A) :=
  λ _ _ p,
    match dict_get "stationTriplets" p with
    | Some (PyStr s) =>
        if decide (s = pattern) then Ok (ReplyList stations)
        else Ok (ReplyList [])
    | _ => Ok (ReplyList [])
    end.

(** * Further vocabulary *)

(** The entries of the series that normalisation keeps, in the order of
    [element_data]. *)
Definition kept_entries {num} `{PyNumber num} (station_data : list (data_item num))
  : list (value_entry num) :=
  mjoin (element_data_of station_data).*2.

(** The point that a series of entries gives on a date: the value of its
    first entry on that date, when it is a number. *)
Definition point_on {num} `{PyNumber num} (vs : list (value_entry num))
    (d : option string) : option (pyobj num * num) :=
  n ← first_entry d vs ≫= value; Some (date_obj d, n).


(** [n] slashes. *)
Fixpoint slashes (n : nat) : string :=
  match n with
  | O => EmptyString
  | S n' => String "/" (slashes n')
  end.

(** The number of occurrences of a character in a string. *)
Fixpoint occurrences (c : Ascii.ascii) (s : string) : nat :=
  match s with
  | EmptyString => 0
  | String a s' => (if decide (a = c) then 1 else 0) + occurrences c s'
  end.

Definition first_char (s : string) : option Ascii.ascii :=
  match s with
  | String a _ => Some a
  | EmptyString => None
  end.

Fixpoint last_char (s : string) : option Ascii.ascii :=
  match s with
  | EmptyString => None
  | String a s' =>
      match s' with
      | EmptyString => Some a
      | _ => last_char s'
      end
  end.


(** * Properties *)

(** ** Dictionaries *)

Section Dict.
Context {V : Type}.
Implicit Types (d : pydict V) (k : string) (v : V).

Lemma dict_get_set_eq k v d : dict_get k (dict_set k v d) = Some v.
Proof.
  induction d as [|[k' v'] d IH]; simpl.
  - by rewrite decide_True.
  - destruct (decide (k = k')) as [->|Hne]; simpl.
    + by rewrite decide_True.
    + by rewrite decide_False.
Qed.

Lemma dict_get_set_ne k k' v d :
  k ≠ k' → dict_get k' (dict_set k v d) = dict_get k' d.
Proof.
  intros Hne. induction d as [|[k1 v1] d IH]; simpl.
  - by rewrite decide_False.
  - destruct (decide (k = k1)) as [->|Hk]; simpl.
    + by rewrite !decide_False.
    + by rewrite IH.
Qed.

Lemma dict_set_set k v w d : dict_set k w (dict_set k v d) = dict_set k w d.
Proof.
  induction d as [|[k' v'] d IH]; simpl.
  - by rewrite decide_True.
  - destruct (decide (k = k')) as [->|Hk]; simpl.
    + by rewrite decide_True.
    + by rewrite decide_False, IH.
Qed.

Lemma dict_get_None k d : dict_get k d = None ↔ k ∉ dict_keys d.
Proof.
  unfold dict_keys. induction d as [|[k' v'] d IH]; simpl.
  - split; [intros _; apply not_elem_of_nil | done].
  - rewrite not_elem_of_cons. destruct (decide (k = k')) as [->|Hk].
    + split; [done | by intros [? _]].
    + rewrite IH. tauto.
Qed.

Lemma dict_get_Some_elem k v d : dict_get k d = Some v → (k, v) ∈ d.
Proof.
  induction d as [|[k' v'] d IH]; simpl; [done|].
  destruct (decide (k = k')) as [->|]; intros Hg.
  - injection Hg as ->. left.
  - right. auto.
Qed.

Lemma dict_get_elem k v d : NoDup (dict_keys d) → (k, v) ∈ d → dict_get k d = Some v.
Proof.
  unfold dict_keys. induction d as [|[k' v'] d IH]; simpl.
  - intros _ Hin. by apply elem_of_nil in Hin.
  - intros [Hk' Hd]%NoDup_cons [Heq|Hin]%elem_of_cons.
    + injection Heq as -> ->. by rewrite decide_True.
    + rewrite decide_False; [by apply IH|].
      intros ->. apply Hk'. apply list_elem_of_fmap. by exists (k', v).
Qed.

Lemma dict_keys_set k v d :
  dict_keys (dict_set k v d) =
  if decide (k ∈ dict_keys d) then dict_keys d else dict_keys d ++ [k].
Proof.
  unfold dict_keys. induction d as [|[k' v'] d IH]; csimpl.
  - done.
  - destruct (decide (k = k')) as [->|Hk]; csimpl.
    + rewrite decide_True; [done | left].
    + rewrite IH. destruct (decide (k ∈ d.*1)) as [Hin|Hin].
      * rewrite decide_True; [done | by right].
      * rewrite decide_False; [done|]. rewrite not_elem_of_cons. done.
Qed.

Lemma dict_set_NoDup k v d : NoDup (dict_keys d) → NoDup (dict_keys (dict_set k v d)).
Proof.
  intros Hd. rewrite dict_keys_set. case_decide; [done|].
  apply NoDup_app. split_and!; [done| |apply NoDup_singleton].
  intros x Hx ->%list_elem_of_singleton. done.
Qed.

End Dict.

(** ** The dictionary of series *)

Section ElementData.
Context {num : Type} `{PyNumber num}.
Implicit Types (sd pre post : list (data_item num)) (g h : data_item num).
Implicit Types (ed : pydict (list (value_entry num))) (code : string).

Lemma element_data_of_snoc sd g :
  element_data_of (sd ++ [g]) =
  dict_set (item_code g) (item_values g) (element_data_of sd).
Proof. unfold element_data_of. by rewrite foldl_app. Qed.

Lemma element_data_of_NoDup sd : NoDup (dict_keys (element_data_of sd)).
Proof.
  induction sd as [|g sd IH] using rev_ind.
  - constructor.
  - rewrite element_data_of_snoc. by apply dict_set_NoDup.
Qed.

(** The series kept for a code is the one of the last group carrying it. *)
Lemma element_data_of_get sd code :
  dict_get code (element_data_of sd) =
  item_values <$> last (filter (λ g, item_code g = code) sd).
Proof.
  induction sd as [|g sd IH] using rev_ind; [done|].
  rewrite element_data_of_snoc, filter_app, filter_cons, filter_nil.
  destruct (decide (item_code g = code)) as [<-|Hne].
  - by rewrite dict_get_set_eq, last_snoc.
  - by rewrite dict_get_set_ne, app_nil_r.
Qed.

Lemma agree_except_set_same code vs vs' ed :
  agree_except code (dict_set code vs ed) (dict_set code vs' ed).
Proof.
  induction ed as [|[k w] ed IH]; simpl.
  - constructor; [|constructor]. by split.
  - destruct (decide (code = k)) as [->|Hk]; constructor; simpl; try done.
    apply Forall2_same_length_lookup_2; [done|]. by intros i x y ? ?; simplify_eq.
Qed.

Lemma agree_except_set code k vs ed ed' :
  agree_except code ed ed' →
  agree_except code (dict_set k vs ed) (dict_set k vs ed').
Proof.
  induction 1 as [|[k1 w1] [k2 w2] ed ed' [Hk Hw] Hrest IH]; simpl in *.
  - constructor; [done | constructor].
  - subst k2. destruct (decide (k = k1)) as [->|Hne]; constructor; simpl; auto.
Qed.

Lemma agree_except_absent code ed ed' :
  code ∉ dict_keys ed → agree_except code ed ed' → ed = ed'.
Proof.
  unfold dict_keys. intros Hnot Hag. induction Hag as [|[k1 w1] [k2 w2] ed ed' [Hk Hw] Hrest IH]; [done|].
  simpl in *. apply not_elem_of_cons in Hnot as [Hne Hnot]. subst k2.
  f_equal; [f_equal; auto | auto].
Qed.

Lemma agree_except_overwrite code vs ed ed' :
  NoDup (dict_keys ed) → agree_except code ed ed' →
  dict_set code vs ed = dict_set code vs ed'.
Proof.
  unfold dict_keys. intros Hnd Hag. induction Hag as [|[k1 w1] [k2 w2] ed ed' [Hk Hw] Hrest IH]; [done|].
  simpl in *. apply NoDup_cons in Hnd as [Hk1 Hnd]. subst k2.
  destruct (decide (code = k1)) as [->|Hne].
  - f_equal. by apply (agree_except_absent k1).
  - f_equal; [f_equal; auto | auto].
Qed.

Lemma element_data_of_app sd sd' :
  element_data_of (sd ++ sd') =
  foldl (λ element_data item,
           dict_set (item_code item) (item_values item) element_data)
        (element_data_of sd) sd'.
Proof. unfold element_data_of. by rewrite foldl_app. Qed.

Lemma foldl_agree_except code ed ed' post :
  NoDup (dict_keys ed) → agree_except code ed ed' →
  Exists (λ h, item_code h = code) post →
  foldl (λ element_data item,
           dict_set (item_code item) (item_values item) element_data) ed post =
  foldl (λ element_data item,
           dict_set (item_code item) (item_values item) element_data) ed' post.
Proof.
  intros Hnd Hag Hex. revert ed ed' Hnd Hag.
  induction Hex as [h post Hh|h post Hex IH]; intros ed ed' Hnd Hag; simpl.
  - rewrite Hh. by rewrite (agree_except_overwrite code _ ed ed').
  - apply IH; [by apply dict_set_NoDup | by apply agree_except_set].
Qed.

(** A group followed by a group with the same code has no influence. *)
Lemma element_data_of_shadowed pre g g' post :
  item_code g' = item_code g →
  Exists (λ h, item_code h = item_code g) post →
  element_data_of (pre ++ g :: post) = element_data_of (pre ++ g' :: post).
Proof.
  intros Hc Hex.
  rewrite !(element_data_of_app pre). simpl. rewrite Hc.
  apply (foldl_agree_except (item_code g)); [|apply agree_except_set_same|done].
  apply dict_set_NoDup. apply (element_data_of_NoDup pre).
Qed.

End ElementData.

(** ** Dates and their order *)

Lemma StronglySorted_strict {A} (R : relation A) `{!AntiSymm (=) R} (l : list A) :
  NoDup l → StronglySorted R l → StronglySorted (strict R) l.
Proof.
  intros Hnd Hs. induction Hs as [|x l Hs IH Hx]; [constructor|].
  apply NoDup_cons in Hnd as [Hx' Hnd]. constructor; [by apply IH|].
  apply Forall_forall. intros y Hy. split.
  - by eapply Forall_forall in Hx.
  - intros Hyx. apply Hx'. eapply Forall_forall in Hx; [|done].
    by rewrite (anti_symm R x y).
Qed.

Lemma mapM_id_Some {A} (l : list (option A)) (k : list A) :
  mapM id l = Some k ↔ l = Some <$> k.
Proof.
  rewrite mapM_Some. split.
  - induction 1; simpl in *; [done | by f_equal].
  - intros ->. induction k; constructor; auto.
Qed.

Lemma py_sorted_Ok l ds :
  NoDup l → py_sorted l = Ok ds → ds ≡ₚ l ∧ StronglySorted date_lt ds.
Proof.
  intros Hnd. unfold py_sorted.
  destruct l as [|x [|y l]].
  - intros [= <-]. split; [done | constructor].
  - intros [= <-]. split; [done | repeat constructor].
  - destruct (mapM id (x :: y :: l)) as [ss|] eqn:Hss; [|done].
    intros [= <-]. apply mapM_id_Some in Hss. rewrite Hss in Hnd |- *.
    apply NoDup_fmap in Hnd; [|apply _].
    split.
    + by rewrite merge_sort_Permutation.
    + apply (StronglySorted_fmap _ (strict String.le)); [done|].
      apply StronglySorted_strict; [apply _| |apply StronglySorted_merge_sort; apply _].
      by rewrite merge_sort_Permutation.
Qed.

(** [sorted] raises exactly on a [None] among two or more dates. *)
Lemma py_sorted_Raise l :
  (∃ e, py_sorted l = Raise e) ↔ 2 ≤ length l ∧ None ∈ l.
Proof.
  unfold py_sorted. destruct l as [|x [|y l]].
  - split; [by intros [? ?] | simpl; lia].
  - split; [by intros [? ?] | simpl; lia].
  - destruct (mapM id (x :: y :: l)) as [ss|] eqn:Hss.
    + split; [by intros [? ?]|]. intros [_ Hin]. apply mapM_id_Some in Hss.
      rewrite Hss in Hin. apply list_elem_of_fmap in Hin as (? & ? & ?). done.
    + split; [|by eauto]. intros _. split; [simpl; lia|].
      apply mapM_None in Hss. apply Exists_exists in Hss as (z & Hz & Hnone).
      simpl in Hnone. by subst z.
Qed.

Lemma py_sorted_all_Some l :
  Forall is_Some l → ∃ ds, py_sorted l = Ok ds.
Proof.
  intros Hall. destruct (py_sorted l) as [ds|e] eqn:Hs; [by eauto|].
  assert (2 ≤ length l ∧ None ∈ l) as [_ Hin] by (apply py_sorted_Raise; eauto).
  eapply Forall_forall in Hall; [|done]. by destruct Hall.
Qed.

Section Dates.
Context {num : Type} `{PyNumber num}.
Implicit Types (ed : pydict (list (value_entry num))) (d : option string).

Lemma elem_of_dates_of ed d :
  d ∈ dates_of ed ↔ ∃ code vs v, (code, vs) ∈ ed ∧ v ∈ vs ∧ date v = d.
Proof.
  unfold dates_of.
  assert (∀ (vs : list (value_entry num)) (acc : gset (option string)),
    d ∈ foldl (λ dates v, dates ∪ {[ date v ]}) acc vs ↔
    d ∈ acc ∨ ∃ v, v ∈ vs ∧ date v = d) as Hin.
  { induction vs as [|v vs IH]; intros acc; simpl.
    - set_solver.
    - rewrite IH. set_solver. }
  assert (∀ ed (acc : gset (option string)),
    d ∈ foldl (λ dates '(_, vs),
                 foldl (λ dates (v : value_entry num), dates ∪ {[ date v ]}) dates vs)
          acc ed ↔
    d ∈ acc ∨ ∃ code vs v, (code, vs) ∈ ed ∧ v ∈ vs ∧ date v = d) as Hout.
  { clear ed. induction ed as [|[code vs] ed IH]; intros acc; simpl.
    - set_solver.
    - rewrite IH, Hin. split.
      + intros [[?|(v & ? & ?)]|(c & vs' & v & ? & ? & ?)]; [by left|right..].
        * exists code, vs, v. split_and!; [left|done..].
        * exists c, vs', v. split_and!; [by right|done..].
      + intros [?|(c & vs' & v & [Heq|?]%elem_of_cons & ? & ?)].
        * by left; left.
        * injection Heq as -> ->. left; right. eauto.
        * right. eauto 10. }
  rewrite Hout. set_solver.
Qed.

End Dates.

(** ** Records *)

Section Records.
Context {num : Type} `{PyNumber num}.
Implicit Types (ed : pydict (list (value_entry num))) (d : option string).
Implicit Types (vs : list (value_entry num)) (rec : pydict (pyobj num)).
Implicit Types (pre post : list (value_entry num)) (v : value_entry num).
Implicit Types (sd : list (data_item num)).

Lemma scan_values_first_entry d code vs rec :
  scan_values d code vs rec =
  match first_entry d vs with
  | Some v => dict_set code (value_obj v) rec
  | None => rec
  end.
Proof.
  unfold first_entry. induction vs as [|v vs IH]; csimpl; [done|].
  case_decide; [done|]. rewrite IH.
  by destruct (list_find _ vs) as [[i w]|].
Qed.


Lemma first_entry_Some d vs v :
  first_entry d vs = Some v → v ∈ vs ∧ date v = d.
Proof.
  unfold first_entry. intros ([i w] & Hf & ->)%fmap_Some.
  apply list_find_Some in Hf as (Hl & Hd & _). split; [|done].
  by eapply list_elem_of_lookup_2.
Qed.

Lemma first_entry_None d vs :
  first_entry d vs = None ↔ Forall (λ v, date v ≠ d) vs.
Proof. unfold first_entry. by rewrite fmap_None, list_find_None. Qed.

Lemma foldl_scan_get ed d code rec :
  NoDup (dict_keys ed) →
  dict_get code (foldl (λ rec '(code, vs), scan_values d code vs rec) rec ed) =
  match dict_get code ed ≫= first_entry d with
  | Some v => Some (value_obj v)
  | None => dict_get code rec
  end.
Proof.
  unfold dict_keys. revert rec.
  induction ed as [|[k vs] ed IH]; intros rec Hnd; csimpl; [done|].
  apply NoDup_cons in Hnd as [Hk Hnd]. rewrite IH by done.
  rewrite scan_values_first_entry.
  destruct (decide (code = k)) as [->|Hne].
  - assert (dict_get k ed = None) as -> by by apply dict_get_None.
    csimpl. destruct (first_entry d vs); [|done]. by rewrite dict_get_set_eq.
  - destruct (dict_get code ed ≫= first_entry d); [done|].
    destruct (first_entry d vs); [|done]. by rewrite dict_get_set_ne.
Qed.

(** What a record holds under a key. *)
Lemma build_record_get ed d code :
  NoDup (dict_keys ed) →
  dict_get code (build_record ed d) =
  match dict_get code ed ≫= first_entry d with
  | Some v => Some (value_obj v)
  | None => if decide (code = "date") then Some (date_obj d) else None
  end.
Proof.
  intros Hnd. unfold build_record. rewrite foldl_scan_get by done.
  destruct (dict_get code ed ≫= first_entry d); [done|]. simpl.
  by destruct (decide (code = "date")).
Qed.

Lemma normalize_Ok sd recs :
  normalize sd = Ok recs ↔
  ∃ ds, py_sorted (elements (dates_of (element_data_of sd))) = Ok ds ∧
        recs = build_record (element_data_of sd) <$> ds.
Proof.
  unfold normalize. simpl.
  destruct (py_sorted _) as [ds|e]; simpl.
  - split; [intros [= <-]; eauto | by intros (? & [= <-] & ->)].
  - split; [done | by intros (? & ? & _)].
Qed.

(** The dates for which records are built: every date of the kept
    series once, in ascending order. *)
Lemma normalize_dates sd ds :
  py_sorted (elements (dates_of (element_data_of sd))) = Ok ds →
  StronglySorted date_lt ds ∧
  ∀ d, d ∈ ds ↔ ∃ code vs v,
    dict_get code (element_data_of sd) = Some vs ∧ v ∈ vs ∧ date v = d.
Proof.
  intros [Hperm Hsorted]%py_sorted_Ok; [|apply NoDup_elements].
  split; [done|]. intros d. rewrite Hperm, elem_of_elements, elem_of_dates_of.
  split; intros (code & vs & v & Hin & ? & ?); exists code, vs, v; split_and!; try done.
  - apply dict_get_elem; [apply element_data_of_NoDup | done].
  - by apply dict_get_Some_elem.
Qed.

End Records.

(** ** The rational instance obeys the laws *)

Lemma round_half_even_inject_Z (k : Z) : round_half_even (inject_Z k) = k.
Proof.
  unfold round_half_even. rewrite Qfloor_Z.
  replace (Qcompare (inject_Z k - inject_Z k) (1 # 2)) with Lt; [done|].
  symmetry. apply -> Qlt_alt. lra.
Qed.

#[global] Instance round_half_even_proper : Proper (Qeq ==> eq) round_half_even.
Proof.
  intros x y Hxy. unfold round_half_even.
  rewrite (Qfloor_comp x y Hxy).
  assert (Qcompare (x - inject_Z (Qfloor y)) (1 # 2) =
          Qcompare (y - inject_Z (Qfloor y)) (1 # 2)) as ->; [|done].
  apply Qcompare_comp; [by rewrite Hxy | done].
Qed.

Lemma Q_round_idem x n : Q_round (Q_round x n) n = Q_round x n.
Proof.
  unfold Q_round.
  set (s := inject_Z (10 ^ Z.of_nat n)).
  set (k := round_half_even (x * s)).
  assert (0 < s)%Q as Hs.
  { unfold s. replace 0%Q with (inject_Z 0) by done. rewrite <- Zlt_Qlt.
    apply Z.pow_pos_nonneg; lia. }
  assert (round_half_even (Qred (inject_Z k / s) * s) = k) as ->; [|done].
  rewrite <- (round_half_even_inject_Z k) at 2.
  apply round_half_even_proper. rewrite Qred_correct. field. lra.
Qed.

#[global] Instance Q_laws : PyNumberLaws Q.
Proof.
  split; simpl.
  - intros x. apply negb_false_iff, Qle_bool_iff. lra.
  - intros x y z Hxy%negb_true_iff Hyz%negb_true_iff. apply negb_true_iff.
    apply not_true_iff_false. apply not_true_iff_false in Hxy, Hyz.
    rewrite Qle_bool_iff in *. lra.
  - intros x y z Hxz%negb_true_iff. apply not_true_iff_false in Hxz.
    rewrite Qle_bool_iff in Hxz.
    destruct (Qle_bool x y) eqn:Hxy; [|by left]. right.
    apply negb_true_iff, not_true_iff_false. rewrite Qle_bool_iff in *. lra.
  - intros x. by apply Qeq_bool_iff.
  - apply Q_round_idem.
Qed.

(** So does the instance of [int] and [float]: both are compared by the
    rationals they denote. *)
#[global] Instance pynum_laws : PyNumberLaws pynum.
Proof.
  split; simpl.
  - intros x. apply negb_false_iff, Qle_bool_iff. lra.
  - intros x y z Hxy%negb_true_iff Hyz%negb_true_iff. apply negb_true_iff.
    apply not_true_iff_false. apply not_true_iff_false in Hxy, Hyz.
    rewrite Qle_bool_iff in *. lra.
  - intros x y z Hxz%negb_true_iff. apply not_true_iff_false in Hxz.
    rewrite Qle_bool_iff in Hxz.
    destruct (Qle_bool (pynum_value x) (pynum_value y)) eqn:Hxy; [|by left].
    right. apply negb_true_iff, not_true_iff_false.
    rewrite Qle_bool_iff in *. lra.
  - intros x. by apply Qeq_bool_iff.
  - intros [z|q] n; [done|]. by rewrite Q_round_idem.
Qed.

(** ** Snowfall events *)

Section Snowfall.
Context {num : Type} `{PyNumber num}.
Implicit Types (sd events : list (pyobj num * num)).

Lemma adjacent_cons {A} (x y : A) l :
  adjacent (x :: y :: l) = (x, y) :: adjacent (y :: l).
Proof. done. Qed.

Lemma snowfall_step_Raise sd e (l : list nat) :
  foldl (snowfall_step sd) (Raise e) l = Raise e.
Proof. by induction l. Qed.

Lemma snowfall_loop sd k m events :
  S k + m = length sd →
  foldl (snowfall_step sd) (Ok events) (seq (S k) m) =
  new ← mapM event_of (filter rising (adjacent (drop k sd)));
  Ok (events ++ new).
Proof.
  revert k events. induction m as [|m IH]; intros k events Hlen.
  - simpl. destruct (drop k sd) as [|x [|y r]] eqn:Hd.
    + simpl. by rewrite app_nil_r.
    + simpl. by rewrite app_nil_r.
    + apply (f_equal length) in Hd. rewrite length_drop in Hd. simpl in Hd. lia.
  - destruct (lookup_lt_is_Some_2 sd k) as [p Hp]; [lia|].
    destruct (lookup_lt_is_Some_2 sd (S k)) as [c Hc]; [lia|].
    rewrite (drop_S _ _ _ Hp), (drop_S _ _ _ Hc), adjacent_cons.
    rewrite <- (drop_S _ _ _ Hc).
    cbn [seq foldl]. unfold snowfall_step at 2. simpl.
    rewrite Nat.sub_0_r. unfold py_index. rewrite Hp, Hc. simpl.
    rewrite filter_cons.
    destruct (decide (rising (p, c))) as [Hr|Hr]; unfold rising in Hr; simpl in Hr.
    + apply Is_true_true in Hr. rewrite Hr.
      change (mapM event_of ((p, c) :: ?l))
        with (y ← event_of (p, c); k ← mapM event_of l; Ok (y :: k)).
      change (event_of (p, c))
        with (increase ← py_sub c.2 p.2; Ok (c.1, py_round increase 1)).
      destruct (py_sub c.2 p.2) as [increase|e]; simpl.
      * rewrite IH by lia.
        destruct (mapM event_of _) as [new|e]; simpl; [|done].
        by rewrite <- app_assoc.
      * apply snowfall_step_Raise.
    + apply Is_true_false in Hr. by rewrite Hr, IH by lia.
Qed.

End Snowfall.

Section SnowfallSpec.
Context {num : Type} `{PyNumber num}.

(** The loop never indexes out of range, and computes the events of the
    rising pairs in order, up to the first subtraction that raises. *)
Lemma snowfall_days_spec (snow_depths : list (pyobj num * num)) :
  snowfall_days snow_depths =
  mapM event_of (filter rising (adjacent snow_depths)).
Proof.
  unfold snowfall_days. destruct snow_depths as [|x sd]; [done|].
  rewrite (snowfall_loop (x :: sd) 0 _ []); [|simpl; lia].
  rewrite drop_0. by destruct (mapM event_of _).
Qed.

(** A list mapped without an exception, element by element. *)
Lemma mapM_Ok {A B} (f : A → exc B) (l : list A) (k : list B) :
  mapM f l = Ok k ↔ Forall2 (λ x y, f x = Ok y) l k.
Proof.
  revert k. induction l as [|x l IH]; intros k; simpl.
  - split; [intros [= <-]; constructor | by inversion 1].
  - split.
    + destruct (f x) as [y|e] eqn:Hx; simpl; [|done].
      destruct (mapM f l) as [k'|e] eqn:Hl; simpl; [|done].
      intros [= <-]. constructor; [done|]. by apply IH.
    + inversion 1 as [|? y ? k' Hx Hl]; subst. rewrite Hx. simpl.
      apply IH in Hl. by rewrite Hl.
Qed.

Lemma mapM_Ok_length {A B} (f : A → exc B) (l : list A) (k : list B) :
  mapM f l = Ok k → length k = length l.
Proof. intros Hk%mapM_Ok. symmetry. by eapply Forall2_length. Qed.

(** A list on which the function never raises is mapped as a whole. *)
Lemma mapM_is_Ok {A B} (f : A → exc B) (l : list A) :
  Forall (λ x, ∃ y, f x = Ok y) l → ∃ k, mapM f l = Ok k.
Proof.
  induction 1 as [|x l [y Hy] _ [k IH]]; simpl; [by eexists|].
  rewrite Hy, IH. by eexists.
Qed.

End SnowfallSpec.

(** ** Maximum and first occurrence *)

Section Peak.
Context {num : Type} `{PyNumberLaws num}.
Implicit Types (x y m : num) (l : list num) (s : list (pyobj num * num)).

Lemma foldl_max_spec x l :
  let m := foldl (λ m y, if py_gt y m then y else m) x l in
  m ∈ x :: l ∧ ∀ y, y ∈ x :: l → py_gt y m = false.
Proof.
  revert x. induction l as [|y l IH]; intros x; simpl.
  - split; [left|]. intros y ->%list_elem_of_singleton. apply py_gt_irrefl.
  - destruct (py_gt y x) eqn:Hyx.
    + destruct (IH y) as [Hin Hmax]. split; [by right|].
      intros z Hz. apply elem_of_cons in Hz as [Heq|Hz]; [subst z|by apply Hmax].
      destruct (py_gt x _) eqn:Hxm; [|done].
      rewrite <- (Hmax y); [|left]. symmetry. by eapply py_gt_trans.
    + destruct (IH x) as [Hin Hmax]. split.
      * apply elem_of_cons in Hin. destruct Hin as [Heq|Hin].
        -- rewrite Heq. left.
        -- right. by right.
      * intros z Hz. apply elem_of_cons in Hz as [Heq|Hz]; [subst z; apply Hmax; left|].
        apply elem_of_cons in Hz as [Heq|Hz]; [subst z|apply Hmax; by right].
        destruct (py_gt y (foldl _ x l)) eqn:Hym; [|done].
        apply (py_gt_cotrans _ x) in Hym as [Hzx|Hxm]; [congruence|].
        rewrite <- Hxm. apply Hmax. left.
Qed.

(** [max] of a non-empty list is one of its elements, and none is greater. *)
Lemma py_max_spec l :
  l ≠ [] →
  ∃ m, py_max l = Ok m ∧ m ∈ l ∧ ∀ y, y ∈ l → py_gt y m = false.
Proof.
  destruct l as [|x l]; [done|]. intros _. eexists. split; [done|].
  apply foldl_max_spec.
Qed.

(** The first pair whose number equals [m]. *)
Lemma first_equal_spec m s :
  m ∈ s.*2 →
  ∃ pre p post, first_equal m s = Ok p ∧ s = pre ++ p :: post ∧
    py_eq p.2 m = true ∧ Forall (λ q, py_eq q.2 m = false) pre.
Proof.
  unfold first_equal, py_index. intros Hm.
  induction s as [|q s IH]; [by apply elem_of_nil in Hm|].
  rewrite filter_cons. case_decide as Hq.
  - apply Is_true_true in Hq. exists [], q, s. by split_and!.
  - apply Is_true_false in Hq.
    destruct IH as (pre & p & post & Hf & -> & Hp & Hpre).
    { csimpl in Hm. apply elem_of_cons in Hm as [->|Hm]; [|done].
      by rewrite py_eq_refl in Hq. }
    exists (q :: pre), p, post. split_and!; try done. by constructor.
Qed.

End Peak.

(** ** The sub-reports *)

Section SubReports.
Context {num : Type} `{PyNumberLaws num}.
Implicit Types (sd events : list (pyobj num * num)).

Lemma peak_exists sd :
  sd ≠ [] →
  ∃ m pre p post,
    py_max sd.*2 = Ok m ∧ first_equal m sd = Ok p ∧
    sd = pre ++ p :: post ∧
    m ∈ sd.*2 ∧ (∀ q, q ∈ sd → py_gt q.2 m = false) ∧
    py_eq p.2 m = true ∧ Forall (λ q, py_eq q.2 m = false) pre.
Proof.
  intros Hne. destruct (py_max_spec sd.*2) as (m & Hmax & Hin & Hge).
  { by destruct sd. }
  destruct (first_equal_spec m sd Hin) as (pre & p & post & Hf & Hsd & Hp & Hpre).
  exists m, pre, p, post. split_and!; try done.
  intros q Hq. apply Hge. apply list_elem_of_fmap. by exists q.
Qed.

Lemma snowfall_amount_rounded sd events m :
  snowfall_days sd = Ok events → m ∈ events.*2 → py_round m 1 = m.
Proof.
  rewrite snowfall_days_spec. intros Hev%mapM_Ok.
  intros (ev & -> & Hin)%list_elem_of_fmap.
  apply list_elem_of_lookup in Hin as [i Hi].
  destruct (Forall2_lookup_r _ _ _ _ _ Hev Hi) as (pc & _ & Hpc).
  unfold event_of in Hpc. destruct (py_sub _ _) as [increase|]; [|done].
  injection Hpc as <-. apply py_round_idem.
Qed.

End SubReports.

Section SubReportValues.
Context {num : Type} `{PyNumberLaws num}.
Implicit Types (sd events : list (pyobj num * num)).

(** The depth sub-report of a non-empty series, written out: the report
    when the mean of the depths is computed, and else its exception. *)
Lemma snow_depth_analysis_spec sd :
  sd ≠ [] →
  ∃ m pre p post,
    sd = pre ++ p :: post ∧
    m ∈ sd.*2 ∧ (∀ q, q ∈ sd → py_gt q.2 m = false) ∧
    py_eq p.2 m = true ∧ Forall (λ q, py_eq q.2 m = false) pre ∧
    snow_depth_analysis sd =
    average ← mean sd.*2;
    Ok (PyDict
          [("peak_depth",
            PyDict [("value", PyNum (py_round m 1));
                    ("date", p.1);
                    ("unit", PyStr "inches")]);
           ("average_depth", PyNum (py_round average 1));
           ("days_with_snow",
            PyNum (py_len (filter (λ d, py_gt d (py_of_nat 0)) sd.*2)));
           ("total_observations", PyNum (py_len sd.*2))]).
Proof.
  intros Hne.
  destruct (peak_exists sd Hne) as (m & pre & p & post & Hm & Hp & Hrest).
  exists m, pre, p, post. destruct Hrest as (? & ? & ? & ? & ?).
  split_and!; try done.
  unfold snow_depth_analysis, mean. rewrite Hm. simpl. rewrite Hp. simpl.
  by destruct (py_sum _).
Qed.

(** The water-equivalent sub-report of a non-empty series, written out. *)
Lemma swe_analysis_spec sd :
  sd ≠ [] →
  ∃ m pre p post,
    sd = pre ++ p :: post ∧
    m ∈ sd.*2 ∧ (∀ q, q ∈ sd → py_gt q.2 m = false) ∧
    py_eq p.2 m = true ∧ Forall (λ q, py_eq q.2 m = false) pre ∧
    swe_analysis sd =
    average ← mean sd.*2;
    Ok (PyDict
          [("peak_swe",
            PyDict [("value", PyNum (py_round m 2));
                    ("date", p.1);
                    ("unit", PyStr "inches")]);
           ("average_swe", PyNum (py_round average 2));
           ("total_observations", PyNum (py_len sd.*2))]).
Proof.
  intros Hne.
  destruct (peak_exists sd Hne) as (m & pre & p & post & Hm & Hp & Hrest).
  exists m, pre, p, post. destruct Hrest as (? & ? & ? & ? & ?).
  split_and!; try done.
  unfold swe_analysis, mean. rewrite Hm. simpl. rewrite Hp. simpl.
  by destruct (py_sum _).
Qed.

(** The snowfall sub-report of the events of a series, written out: the
    report when the total and the average are computed, and else their
    exception. *)
Lemma snowfall_analysis_spec sd events :
  snowfall_days sd = Ok events → events ≠ [] →
  ∃ m pre p post,
    events = pre ++ p :: post ∧
    m ∈ events.*2 ∧ (∀ q, q ∈ events → py_gt q.2 m = false) ∧
    py_eq p.2 m = true ∧ Forall (λ q, py_eq q.2 m = false) pre ∧
    snowfall_analysis events =
    total ← py_sum events.*2;
    average ← py_truediv total (py_len events);
    Ok (PyDict
          [("total_new_snow", PyNum (py_round total 1));
           ("snow_days", PyNum (py_len events));
           ("biggest_day",
            PyDict [("amount", PyNum m);
                    ("date", p.1);
                    ("unit", PyStr "inches")]);
           ("average_per_snow_day", PyNum (py_round average 1));
           ("snowfall_events", PyList (event_obj <$> events))]).
Proof.
  intros Hev Hne.
  destruct (peak_exists events Hne) as (m & pre & p & post & Hm & Hp & Hrest).
  exists m, pre, p, post. destruct Hrest as (? & Hin & ? & ? & ?).
  split_and!; try done.
  unfold snowfall_analysis. destruct (py_sum _) as [total|e]; simpl; [|done].
  rewrite Hm. simpl. rewrite Hp. simpl.
  by rewrite (snowfall_amount_rounded sd events m).
Qed.

End SubReportValues.

(** ** The summary *)

Section Summary.
Context {num : Type} `{PyNumber num}.
Implicit Types (measurements : list (pydict (pyobj num))).

Lemma series_no_value key measurements :
  Forall (no_value key) measurements → series key measurements = Ok [].
Proof.
  induction 1 as [|r ms [Hr|Hr] _ IH]; simpl; [done|..]; by rewrite Hr.
Qed.

Lemma set_if_nonempty_get {A} key key' (l : list A)
    (report : list A → exc (pyobj num)) (result result' : pydict (pyobj num)) :
  set_if_nonempty key l report result = Ok result' →
  dict_get key' result' =
  if decide (key = key' ∧ l ≠ [])
  then match report l with Ok sub => Some sub | Raise _ => None end
  else dict_get key' result.
Proof.
  unfold set_if_nonempty. destruct l as [|x l].
  - intros [= <-]. rewrite decide_False; [done | by intros [_ ?]].
  - destruct (report (x :: l)) as [sub|e]; simpl; [|done]. intros [= <-].
    destruct (decide (key = key')) as [<-|Hne].
    + rewrite decide_True by done. apply dict_get_set_eq.
    + rewrite decide_False by (by intros [? _]). by apply dict_get_set_ne.
Qed.

(** The three sub-report keys of a summary: each holds its sub-report when
    the list it is computed from is non-empty, and the empty dictionary
    it was initialised with otherwise. *)
Lemma trend_summary_sub_reports t s e measurements summary :
  trend_summary t s e measurements = Ok summary →
  ∃ snow_depths swes events,
    series "SNWD" measurements = Ok snow_depths ∧
    series "WTEQ" measurements = Ok swes ∧
    snowfall_days snow_depths = Ok events ∧
    obj_get "snow_depth_analysis" summary =
      (if decide (snow_depths = []) then Some (PyDict [])
       else match snow_depth_analysis snow_depths with
            | Ok sub => Some sub | Raise _ => None end) ∧
    obj_get "swe_analysis" summary =
      (if decide (swes = []) then Some (PyDict [])
       else match swe_analysis swes with
            | Ok sub => Some sub | Raise _ => None end) ∧
    obj_get "snowfall_analysis" summary =
      (if decide (events = []) then Some (PyDict [])
       else match snowfall_analysis events with
            | Ok sub => Some sub | Raise _ => None end) ∧
    obj_get "measurements" summary = Some (PyList (PyDict <$> measurements)).
Proof.
  unfold trend_summary.
  destruct (series "SNWD" measurements) as [sd|?]; simpl; [|done].
  destruct (set_if_nonempty "snow_depth_analysis" sd _ _) as [r1|?] eqn:H1; simpl; [|done].
  destruct (series "WTEQ" measurements) as [sw|?]; simpl; [|done].
  destruct (set_if_nonempty "swe_analysis" sw _ _) as [r2|?] eqn:H2; simpl; [|done].
  destruct (snowfall_days sd) as [ev|?] eqn:Hev; simpl; [|done].
  destruct (set_if_nonempty "snowfall_analysis" ev _ _) as [r3|?] eqn:H3; simpl; [|done].
  intros [= <-]. exists sd, sw, ev. split_and!; try done; simpl.
  - rewrite (set_if_nonempty_get _ _ _ _ _ _ H3), decide_False by (by intros [? _]).
    rewrite (set_if_nonempty_get _ _ _ _ _ _ H2), decide_False by (by intros [? _]).
    rewrite (set_if_nonempty_get _ _ _ _ _ _ H1).
    destruct (decide (sd = [])) as [->|Hne].
    + by rewrite decide_False by (by intros [_ ?]).
    + by rewrite decide_True.
  - rewrite (set_if_nonempty_get _ _ _ _ _ _ H3), decide_False by (by intros [? _]).
    rewrite (set_if_nonempty_get _ _ _ _ _ _ H2).
    destruct (decide (sw = [])) as [->|Hne].
    + rewrite decide_False by (by intros [_ ?]).
      by rewrite (set_if_nonempty_get _ _ _ _ _ _ H1), decide_False by (by intros [? _]).
    + by rewrite decide_True.
  - rewrite (set_if_nonempty_get _ _ _ _ _ _ H3).
    destruct (decide (ev = [])) as [->|Hne].
    + rewrite decide_False by (by intros [_ ?]).
      rewrite (set_if_nonempty_get _ _ _ _ _ _ H2), decide_False by (by intros [? _]).
      by rewrite (set_if_nonempty_get _ _ _ _ _ _ H1), decide_False by (by intros [? _]).
    + by rewrite decide_True.
  - rewrite (set_if_nonempty_get _ _ _ _ _ _ H3), decide_False by (by intros [? _]).
    rewrite (set_if_nonempty_get _ _ _ _ _ _ H2), decide_False by (by intros [? _]).
    by rewrite (set_if_nonempty_get _ _ _ _ _ _ H1), decide_False by (by intros [? _]).
Qed.

End Summary.

(** ** The records of a station *)

Lemma StronglySorted_NoDup {A} (R : relation A) `{!Irreflexive R} (l : list A) :
  StronglySorted R l → NoDup l.
Proof.
  induction 1 as [|x l Hs IH Hx]; constructor; [|done].
  intros Hin. eapply Forall_forall in Hx; [|done]. by apply (irreflexivity R x).
Qed.

#[global] Instance obj_date_lt_irreflexive {num} : Irreflexive (@obj_date_lt num).
Proof.
  intros x Hx. destruct x as [[]|]; simpl in Hx; try done.
  by apply (irreflexivity (strict String.le)) in Hx.
Qed.

Section Normalize.
Context {num : Type} `{PyNumber num}.
Implicit Types (sd : list (data_item num)) (g : data_item num).
Implicit Types (recs : list (pydict (pyobj num))) (d : option string).
Implicit Types (vs : list (value_entry num)) (v : value_entry num).

Lemma element_data_of_keys sd code :
  code ∈ dict_keys (element_data_of sd) ↔ ∃ g, g ∈ sd ∧ item_code g = code.
Proof.
  induction sd as [|g sd IH] using rev_ind.
  - split; [by intros ?%elem_of_nil | by intros (? & ?%elem_of_nil & _)].
  - rewrite element_data_of_snoc, dict_keys_set. setoid_rewrite elem_of_app.
    setoid_rewrite list_elem_of_singleton. case_decide as Hin.
    + rewrite IH. split; [naive_solver|]. intros (h & [Hh|Hh] & Hc); [by eauto|].
      subst h code. by apply IH.
    + rewrite elem_of_app, list_elem_of_singleton, IH. naive_solver.
Qed.

(** A record built for one of the dates is among the records. *)
Lemma normalize_record_of_entry sd recs code vs v :
  normalize sd = Ok recs →
  dict_get code (element_data_of sd) = Some vs → v ∈ vs →
  build_record (element_data_of sd) (date v) ∈ recs.
Proof.
  intros (ds & Hds & ->)%normalize_Ok Hcode Hv.
  apply list_elem_of_fmap. exists (date v). split; [done|].
  apply (normalize_dates sd ds Hds). by exists code, vs, v.
Qed.

(** Each record is the one built for some date. *)
Lemma normalize_record_inv sd recs r :
  normalize sd = Ok recs → r ∈ recs →
  ∃ d, r = build_record (element_data_of sd) d.
Proof.
  intros (ds & Hds & ->)%normalize_Ok (d & -> & _)%list_elem_of_fmap. by exists d.
Qed.

(** Unless a group is coded [date], the dates read back from the records
    are strictly ascending, hence without duplicates. *)
Lemma normalize_dates_ascending sd recs :
  Forall (λ g, item_code g ≠ "date") sd →
  normalize sd = Ok recs →
  StronglySorted obj_date_lt (record_dates recs) ∧ NoDup (record_dates recs).
Proof.
  intros Hcodes Hn.
  assert (StronglySorted obj_date_lt (record_dates recs)) as Hs;
    [|split; [done | by apply (StronglySorted_NoDup obj_date_lt)]].
  apply normalize_Ok in Hn as (ds & Hds & ->).
  apply normalize_dates in Hds as [Hs _].
  unfold record_dates. rewrite <- list_fmap_compose.
  apply (StronglySorted_fmap _ date_lt); [|done].
  assert (dict_get "date" (element_data_of sd) = None) as Hnone.
  { apply dict_get_None. intros (g & Hg & Hc)%element_data_of_keys.
    by eapply Forall_forall in Hcodes. }
  intros [x|] [y|] Hxy; try done. simpl.
  rewrite !build_record_get, Hnone by apply element_data_of_NoDup. done.
Qed.

(** Normalisation completes when every entry carries a date. *)
Lemma normalize_all_dated sd :
  Forall (λ g, Forall (λ v, is_Some (date v)) (item_values g)) sd →
  ∃ recs, normalize sd = Ok recs.
Proof.
  intros Hall.
  destruct (py_sorted_all_Some (elements (dates_of (element_data_of sd))))
    as [ds Hds].
  - apply Forall_forall. intros d Hd.
    apply elem_of_elements, elem_of_dates_of in Hd as (code & vs & v & Hin & Hv & <-).
    assert (dict_get code (element_data_of sd) = Some vs) as Hget
      by (apply dict_get_elem; [apply element_data_of_NoDup | done]).
    rewrite element_data_of_get in Hget.
    apply fmap_Some in Hget as (g & Hlast & ->).
    apply last_Some in Hlast as [l' Hl'].
    assert (g ∈ filter (λ g, item_code g = code) sd) as Hg
      by (rewrite Hl'; apply elem_of_app; right; left).
    apply list_elem_of_filter in Hg as [_ Hg].
    eapply Forall_forall in Hall; [|done]. by eapply Forall_forall in Hall.
  - exists (build_record (element_data_of sd) <$> ds). apply normalize_Ok. eauto.
Qed.

End Normalize.

(** ** The responses without a report *)

Section NoData.
Context {num : Type} `{PyNumber num}.

Lemma parse_measurements_no_match (t : string) (stations : list (station num)) :
  Forall (λ st, stationTriplet st ≠ Some t) stations →
  parse_measurements t stations = Ok [].
Proof.
  unfold parse_measurements. induction 1 as [|st stations Hst _ IH]; [done|].
  simpl. by rewrite decide_False.
Qed.

End NoData.

(** ** The analysis of normalised records raises only where the arithmetic does *)

Section Total.
Context {num : Type} `{PyNumberLaws num}.
Implicit Types (sd : list (data_item num)) (recs : list (pydict (pyobj num))).

Lemma build_record_well_formed (ed : pydict (list (value_entry num))) d :
  NoDup (dict_keys ed) → well_formed_record (build_record ed d).
Proof.
  intros Hnd. split.
  - rewrite build_record_get by done.
    destruct (dict_get "date" ed ≫= first_entry d); [by eexists|].
    rewrite decide_True by done. by eexists.
  - intros key Hkey. rewrite build_record_get by done.
    destruct (dict_get key ed ≫= first_entry d) as [v|].
    + unfold value_obj. by destruct (value v).
    + by rewrite decide_False.
Qed.

Lemma normalize_well_formed sd recs :
  normalize sd = Ok recs → Forall well_formed_record recs.
Proof.
  intros (ds & _ & ->)%normalize_Ok. apply Forall_fmap, Forall_true.
  intros d. apply build_record_well_formed, element_data_of_NoDup.
Qed.

Lemma series_total key recs :
  key ≠ "date" → Forall well_formed_record recs → ∃ s, series key recs = Ok s.
Proof.
  intros Hkey. induction 1 as [|r recs [[d Hd] Hr] _ [s IH]]; simpl; [by eexists|].
  specialize (Hr key Hkey). rewrite Hd, IH.
  destruct (dict_get key r) as [[]|]; try done; simpl; by eexists.
Qed.

Lemma py_sum_acc_Raise e (l : list num) :
  foldl (λ acc x, total ← acc; py_add total x) (Raise e) l = Raise e.
Proof. by induction l. Qed.

Lemma py_sum_outcome (l : list num) :
  (∃ total, py_sum l = Ok total) ∨
  (∃ e, py_sum l = Raise e ∧ raised_by_arithmetic num e).
Proof.
  unfold py_sum. generalize (py_of_nat 0). induction l as [|x l IH]; intros a.
  - left. by eexists.
  - simpl. destruct (py_add a x) as [a'|e] eqn:Hadd; [apply IH|].
    right. exists e. split; [apply py_sum_acc_Raise|]. exists a, x. by left.
Qed.

Lemma mean_outcome (l : list num) :
  (∃ average, mean l = Ok average) ∨
  (∃ e, mean l = Raise e ∧ raised_by_arithmetic num e).
Proof.
  unfold mean. destruct (py_sum_outcome l) as [[total ->]|(e & -> & He)];
    simpl; [|right; by exists e].
  destruct (py_truediv total (py_len l)) as [average|e] eqn:Hdiv.
  - left. by eexists.
  - right. exists e. split; [done|]. exists total, (py_len l). auto.
Qed.

Lemma mapM_event_of_outcome (pairs : list ((pyobj num * num) * (pyobj num * num))) :
  (∃ events, mapM event_of pairs = Ok events) ∨
  (∃ e, mapM event_of pairs = Raise e ∧ raised_by_arithmetic num e).
Proof.
  induction pairs as [|pc pairs IH]; [left; by eexists|].
  change (mapM event_of (pc :: pairs))
    with (y ← event_of pc; k ← mapM event_of pairs; Ok (y :: k)).
  change (event_of pc)
    with (increase ← py_sub pc.2.2 pc.1.2; Ok (pc.2.1, py_round increase 1)).
  destruct (py_sub pc.2.2 pc.1.2) as [increase|e] eqn:Hsub; simpl.
  - destruct IH as [[events ->]|(e & -> & He)]; simpl.
    + left. by eexists.
    + right. by exists e.
  - right. exists e. split; [done|]. exists pc.2.2, pc.1.2. auto.
Qed.

Lemma snowfall_days_outcome (s : list (pyobj num * num)) :
  (∃ events, snowfall_days s = Ok events) ∨
  (∃ e, snowfall_days s = Raise e ∧ raised_by_arithmetic num e).
Proof. rewrite snowfall_days_spec. apply mapM_event_of_outcome. Qed.

Lemma snow_depth_analysis_outcome (s : list (pyobj num * num)) :
  s ≠ [] →
  (∃ sub, snow_depth_analysis s = Ok sub) ∨
  (∃ e, snow_depth_analysis s = Raise e ∧ raised_by_arithmetic num e).
Proof.
  intros Hne.
  destruct (snow_depth_analysis_spec s Hne)
    as (m & pre & p & post & _ & _ & _ & _ & _ & ->).
  destruct (mean_outcome s.*2) as [[average ->]|(e & -> & He)]; simpl.
  - left. by eexists.
  - right. by exists e.
Qed.

Lemma swe_analysis_outcome (s : list (pyobj num * num)) :
  s ≠ [] →
  (∃ sub, swe_analysis s = Ok sub) ∨
  (∃ e, swe_analysis s = Raise e ∧ raised_by_arithmetic num e).
Proof.
  intros Hne.
  destruct (swe_analysis_spec s Hne)
    as (m & pre & p & post & _ & _ & _ & _ & _ & ->).
  destruct (mean_outcome s.*2) as [[average ->]|(e & -> & He)]; simpl.
  - left. by eexists.
  - right. by exists e.
Qed.

Lemma snowfall_analysis_outcome (s : list (pyobj num * num)) :
  s ≠ [] →
  (∃ sub, snowfall_analysis s = Ok sub) ∨
  (∃ e, snowfall_analysis s = Raise e ∧ raised_by_arithmetic num e).
Proof.
  intros Hne. destruct (peak_exists s Hne) as (m & pre & p & post & Hm & Hp & _).
  unfold snowfall_analysis.
  destruct (py_sum_outcome s.*2) as [[total ->]|(e & -> & He)]; simpl;
    [|right; by exists e].
  rewrite Hm. simpl. rewrite Hp. simpl.
  destruct (py_truediv total (py_len s)) as [average|e] eqn:Hdiv; simpl.
  - left. by eexists.
  - right. exists e. split; [done|]. exists total, (py_len s). auto.
Qed.

Lemma set_if_nonempty_outcome {A} key (l : list A)
    (report : list A → exc (pyobj num)) (result : pydict (pyobj num)) :
  (l ≠ [] → (∃ sub, report l = Ok sub) ∨
            (∃ e, report l = Raise e ∧ raised_by_arithmetic num e)) →
  (∃ result', set_if_nonempty key l report result = Ok result') ∨
  (∃ e, set_if_nonempty key l report result = Raise e ∧ raised_by_arithmetic num e).
Proof.
  intros Hrep. unfold set_if_nonempty. destruct l as [|x l]; [left; by eexists|].
  destruct Hrep as [[sub ->]|(e & -> & He)]; [done|..]; simpl.
  - left. by eexists.
  - right. by exists e.
Qed.

(** On the records of a normalisation the report is produced, unless an
    addition, a subtraction or a division of two numbers raises. *)
Lemma trend_summary_outcome t s e recs :
  Forall well_formed_record recs →
  (∃ summary, trend_summary t s e recs = Ok summary) ∨
  (∃ e', trend_summary t s e recs = Raise e' ∧ raised_by_arithmetic num e').
Proof.
  intros Hwf. unfold trend_summary.
  destruct (series_total "SNWD" recs) as [sd ->]; [done..|]. simpl.
  edestruct (set_if_nonempty_outcome "snow_depth_analysis" sd)
    as [[r1 ->]|(e1 & -> & He1)];
    [apply snow_depth_analysis_outcome| |right; by exists e1]. simpl.
  destruct (series_total "WTEQ" recs) as [sw ->]; [done..|]. simpl.
  edestruct (set_if_nonempty_outcome "swe_analysis" sw)
    as [[r2 ->]|(e2 & -> & He2)];
    [apply swe_analysis_outcome| |right; by exists e2]. simpl.
  destruct (snowfall_days_outcome sd) as [[events ->]|(e3 & -> & He3)];
    [|right; by exists e3]. simpl.
  edestruct (set_if_nonempty_outcome "snowfall_analysis" events)
    as [[r3 ->]|(e4 & -> & He4)];
    [apply snowfall_analysis_outcome| |right; by exists e4]. simpl.
  left. by eexists.
Qed.

End Total.

(** ** When normalisation raises *)

Section Raises.
Context {num : Type} `{PyNumber num}.

(** Normalisation raises exactly when an entry of a kept series has no
    date while the series hold two or more different dates, the missing
    one counted. *)
Lemma normalize_Raise (sd : list (data_item num)) :
  (∃ e, normalize sd = Raise e) ↔
  2 ≤ size (dates_of (element_data_of sd)) ∧
  ∃ code vs v, dict_get code (element_data_of sd) = Some vs ∧
               v ∈ vs ∧ date v = None.
Proof.
  assert ((∃ e, normalize sd = Raise e) ↔
          ∃ e, py_sorted (elements (dates_of (element_data_of sd))) = Raise e) as ->.
  { unfold normalize. destruct (py_sorted _); simpl; split; intros [e' He]; by eauto. }
  rewrite py_sorted_Raise, elem_of_elements, elem_of_dates_of.
  unfold size, set_size. simpl.
  apply and_iff_compat_l.
  split; intros (code & vs & v & Hin & ? & ?); exists code, vs, v; split_and!; try done.
  - apply dict_get_elem; [apply element_data_of_NoDup | done].
  - by apply dict_get_Some_elem.
Qed.

End Raises.

(** ** A run of the model *)

(** The response of the test suite of the repository (tests/test_tools.py),
    analysed: one record, both peaks on its date, no snowfall. *)
Example test_suite_response :
  analyze_snowpack_trends
    (Ok [station_of "713:CO:SNTL"
           [group "SNWD" [entry "2024-01-01" (45 # 1)];
            group "WTEQ" [entry "2024-01-01" (125 # 10)]]])
    "713:CO:SNTL" "2024-01-01" "2024-01-01" =
  PyDict
    [("station_triplet", PyStr "713:CO:SNTL");
     ("period", PyDict [("start_date", PyStr "2024-01-01");
                        ("end_date", PyStr "2024-01-01")]);
     ("total_records", PyNum (1 # 1)%Q);
     ("snow_depth_analysis",
      PyDict [("peak_depth", PyDict [("value", PyNum (45 # 1)%Q);
                                     ("date", PyStr "2024-01-01");
                                     ("unit", PyStr "inches")]);
              ("average_depth", PyNum (45 # 1)%Q);
              ("days_with_snow", PyNum (1 # 1)%Q);
              ("total_observations", PyNum (1 # 1)%Q)]);
     ("swe_analysis",
      PyDict [("peak_swe", PyDict [("value", PyNum (25 # 2)%Q);
                                   ("date", PyStr "2024-01-01");
                                   ("unit", PyStr "inches")]);
              ("average_swe", PyNum (25 # 2)%Q);
              ("total_observations", PyNum (1 # 1)%Q)]);
     ("snowfall_analysis", PyDict []);
     ("measurements",
      PyList [PyDict [("date", PyStr "2024-01-01");
                      ("SNWD", PyNum (45 # 1)%Q);
                      ("WTEQ", PyNum (125 # 10)%Q)]])].
Proof. vm_compute. reflexivity. Qed.

(** One depth, an [int] beyond the range of [float]: its division by the
    number of depths at line 443 raises, and the answer is the error
    object with the text of the exception. *)
Example analysis_of_a_depth_beyond_float :
  analyze_snowpack_trends
    (Ok [{| stationTriplet := Some "713:CO:SNTL";
            data := Some [{| stationElement := Some {| elementCode := Some "SNWD" |};
                             values := Some [{| date := Some "2024-01-01";
                                                value := Some (PyInt (10 ^ 400)) |}] |}] |}])
    "713:CO:SNTL" "2024-01-01" "2024-01-01" =
  error_obj ("Error analyzing snowpack trends: " +:+
             "integer division result too large for a float").
Proof. vm_compute. reflexivity. Qed.

(** * The claims *)

(** ** C1 *)





(** A gap in the data: no depth on the second and third day.  The depth
    of the fourth day is compared with the depth of the first. *)
Example snowfall_across_a_gap :
  series "SNWD"
    [[("date", PyStr "2024-01-01"); ("SNWD", PyNum (10 # 1)%Q)];
     [("date", PyStr "2024-01-02"); ("SNWD", PyNone)];
     [("date", PyStr "2024-01-03"); ("WTEQ", PyNum (3 # 1)%Q)];
     [("date", PyStr "2024-01-04"); ("SNWD", PyNum (14 # 1)%Q)]]
  = Ok [(PyStr "2024-01-01", (10 # 1)%Q); (PyStr "2024-01-04", (14 # 1)%Q)]
  ∧ snowfall_days
      [(PyStr "2024-01-01", (10 # 1)%Q); (PyStr "2024-01-04", (14 # 1)%Q)]
    = Ok [(PyStr "2024-01-04", (4 # 1)%Q)].
Proof. split; vm_compute; reflexivity. Qed.

(** ** C2 *)

(** C2.  As long as no group carries the element code [date], the dates
    read back from the records of a station are strictly ascending, and
    so no two records share a date.  The claim fails on a group whose
    element code is the string [date]: the value stored under the code
    overwrites the date of the record, so the dates read back from the
    records are the values of the series, here 9 and then 3, which do not
    ascend.  The records reach the summary as they are. *)
Theorem date_code_overwrites_record_date :
  (∀ num (HN : PyNumber num) (station_data : list (data_item num)) recs,
     Forall (λ g, item_code g ≠ "date") station_data →
     normalize station_data = Ok recs →
     StronglySorted obj_date_lt (record_dates recs) ∧ NoDup (record_dates recs))
  ∧ (let station_data :=
       [group "date" [entry "2024-01-01" (9 # 1); entry "2024-01-02" (3 # 1)]] in
     normalize station_data =
       Ok [[("date", PyNum (9 # 1)%Q)]; [("date", PyNum (3 # 1)%Q)]]
     ∧ (∀ recs, normalize station_data = Ok recs →
          ¬ StronglySorted obj_date_lt (record_dates recs))
     ∧ obj_get "measurements"
         (analyze_snowpack_trends (Ok [station_of "713:CO:SNTL" station_data])
            "713:CO:SNTL" "2024-01-01" "2024-01-02") =
       Some (PyList [PyDict [("date", PyNum (9 # 1)%Q)];
                     PyDict [("date", PyNum (3 # 1)%Q)]])).
Proof.
  split; [intros num HN sd recs; apply normalize_dates_ascending|].
  assert (normalize
            [group "date" [entry "2024-01-01" (9 # 1); entry "2024-01-02" (3 # 1)]]
          = Ok [[("date", PyNum (9 # 1)%Q)]; [("date", PyNum (3 # 1)%Q)]]) as Hn
    by (vm_compute; reflexivity).
  split_and!; [done| |vm_compute; reflexivity].
  intros recs Hrecs. rewrite Hn in Hrecs. injection Hrecs as <-.
  intros Hs. inversion Hs as [|? ? _ Hall]; subst.
  inversion Hall as [|? ? Hlt _]; subst. exact Hlt.
Qed.

(** The ordinary case: the dates of two series are merged and sorted. *)
Example dates_merged_and_sorted :
  normalize
    [group "SNWD" [entry "2024-01-03" (12 # 1); entry "2024-01-01" (10 # 1)];
     group "WTEQ" [entry "2024-01-02" (3 # 1); entry "2024-01-03" (4 # 1)]] =
  Ok [[("date", PyStr "2024-01-01"); ("SNWD", PyNum (10 # 1)%Q)];
      [("date", PyStr "2024-01-02"); ("WTEQ", PyNum (3 # 1)%Q)];
      [("date", PyStr "2024-01-03"); ("SNWD", PyNum (12 # 1)%Q);
       ("WTEQ", PyNum (4 # 1)%Q)]].
Proof. vm_compute. reflexivity. Qed.

(** ** C3 *)

(** C3, as stated, fails: an explicit null in the source is stored in the
    record under its element code. *)
Lemma null_value_stays_in_record :
  ¬ (∀ (station_data : list (data_item Q)) recs r code,
       normalize station_data = Ok recs → r ∈ recs →
       dict_get code r ≠ Some PyNone).
Proof.
  intros Hclaim.
  apply (Hclaim
           [{| stationElement := Some {| elementCode := Some "SNWD" |};
               values := Some [{| date := Some "2024-01-01"; value := None |}] |}]
           [[("date", PyStr "2024-01-01"); ("SNWD", PyNone)]]
           [("date", PyStr "2024-01-01"); ("SNWD", PyNone)]
           "SNWD").
  - vm_compute; reflexivity.
  - left.
  - vm_compute; reflexivity.
Qed.

(** C3, amended.  Each record is the record built for a date [d].  Under
    an element code (other than the key [date] itself) it holds the value
    of the first entry dated [d] in the series kept for the code: a
    number, or [None] when that entry has a null or no value; the key is
    absent exactly when the series has no entry dated [d].  The analysis
    skips a record that holds [None] under a key like one that lacks the
    key. *)
Theorem record_value_of_first_entry {num} `{PyNumber num}
    (station_data : list (data_item num)) recs r :
  normalize station_data = Ok recs → r ∈ recs →
  (∃ d, r = build_record (element_data_of station_data) d ∧
     ∀ code, code ≠ "date" →
       dict_get code r =
       value_obj <$> (dict_get code (element_data_of station_data)
                        ≫= first_entry d))
  ∧ (∀ key measurements,
       dict_get key r = Some PyNone ∨ dict_get key r = None →
       series key (r :: measurements) = series key measurements).
Proof.
  intros Hn Hr. split.
  - destruct (normalize_record_inv _ _ _ Hn Hr) as [d ->]. exists d.
    split; [done|]. intros code Hcode.
    rewrite build_record_get by apply element_data_of_NoDup.
    destruct (dict_get code _ ≫= first_entry d); [done|]. by rewrite decide_False.
  - intros key ms [Hk|Hk]; simpl; by rewrite Hk.
Qed.

Lemma record_value_of_first_entry_witness :
  let station_data : list (data_item Q) :=
    [{| stationElement := Some {| elementCode := Some "SNWD" |};
        values := Some [{| date := Some "2024-01-01"; value := None |};
                        {| date := Some "2024-01-01"; value := Some (7 # 1)%Q |}] |}] in
  let recs : list (pydict (pyobj Q)) :=
    [[("date", PyStr "2024-01-01"); ("SNWD", PyNone)]] in
  let r : pydict (pyobj Q) := [("date", PyStr "2024-01-01"); ("SNWD", PyNone)] in
  normalize station_data = Ok recs ∧ r ∈ recs ∧
  (∃ d, r = build_record (element_data_of station_data) d ∧
     ∀ code, code ≠ "date" →
       dict_get code r =
       value_obj <$> (dict_get code (element_data_of station_data)
                        ≫= first_entry d))
  ∧ (∀ key measurements,
       dict_get key r = Some PyNone ∨ dict_get key r = None →
       series key (r :: measurements) = series key measurements).
Proof.
  split; [vm_compute; reflexivity|]. split; [left|].
  apply (record_value_of_first_entry
           [{| stationElement := Some {| elementCode := Some "SNWD" |};
               values := Some [{| date := Some "2024-01-01"; value := None |};
                               {| date := Some "2024-01-01"; value := Some (7 # 1)%Q |}] |}]
           [[("date", PyStr "2024-01-01"); ("SNWD", PyNone)]]).
  - vm_compute; reflexivity.
  - left.
Defined.

(** ** C4 *)



(** ** C5 *)




(** The depth analysis of a depth beyond the range of [float]: the
    division of line 443 raises and there is no peak. *)
Example peak_of_a_depth_beyond_float :
  snow_depth_analysis [(PyStr "2024-01-01", PyInt (10 ^ 400))]
  = Raise (OverflowError "integer division result too large for a float").
Proof. vm_compute. reflexivity. Qed.

(** ** C6 *)

(** C6, as stated, fails in its general part: an event whose amount is
    an [int] beyond the range of [float] exists, and the division of
    line 492 raises [OverflowError]: no total, number, biggest day or
    average is reported. *)
Lemma summary_of_an_increase_beyond_float :
  snowfall_days [(PyStr "2024-01-01", PyInt 0);
                 (PyStr "2024-01-02", PyInt (10 ^ 400))]
    = Ok [(PyStr "2024-01-02", PyInt (10 ^ 400))]
  ∧ snowfall_analysis [(PyStr "2024-01-02", PyInt (10 ^ 400))]
    = Raise (OverflowError "integer division result too large for a float").
Proof. split; vm_compute; reflexivity. Qed.

(** C6, amended.  On the depths 10, 14, 14, 20 of four consecutive days
    the analysis finds the events 4 on the second day and 6 on the
    fourth, and reports the total 10, two snow days, the biggest day 6
    on the fourth day and the average 5.  In general, when the events of
    a series are not empty and their sum and its division by their
    number are computed, the sub-report holds the sum of their amounts
    rounded to one decimal, their number, the greatest amount [m] with
    the date of the first event [p] whose amount equals it, the sum
    divided by the number rounded to one decimal, and the events; when
    the sum or the division raises, the analysis raises that exception
    and reports nothing. *)
Theorem snowfall_summary :
  obj_get "snowfall_analysis"
    (analyze_snowpack_trends
       (Ok [station_of "713:CO:SNTL"
              [group "SNWD"
                 [entry "2024-01-01" (10 # 1); entry "2024-01-02" (14 # 1);
                  entry "2024-01-03" (14 # 1); entry "2024-01-04" (20 # 1)]]])
       "713:CO:SNTL" "2024-01-01" "2024-01-04") =
  Some (PyDict
          [("total_new_snow", PyNum (10 # 1)%Q);
           ("snow_days", PyNum (2 # 1)%Q);
           ("biggest_day",
            PyDict [("amount", PyNum (6 # 1)%Q);
                    ("date", PyStr "2024-01-04");
                    ("unit", PyStr "inches")]);
           ("average_per_snow_day", PyNum (5 # 1)%Q);
           ("snowfall_events",
            PyList [PyDict [("date", PyStr "2024-01-02"); ("amount", PyNum (4 # 1)%Q)];
                    PyDict [("date", PyStr "2024-01-04"); ("amount", PyNum (6 # 1)%Q)]])])
  ∧ (∀ num (HN : PyNumber num) (HL : PyNumberLaws num)
       (snow_depths events : list (pyobj num * num)),
       snowfall_days snow_depths = Ok events → events ≠ [] →
       ∃ m pre p post,
         events = pre ++ p :: post ∧
         m ∈ events.*2 ∧
         (∀ q, q ∈ events → py_gt q.2 m = false) ∧
         py_eq p.2 m = true ∧
         Forall (λ q, py_eq q.2 m = false) pre ∧
         snowfall_analysis events =
         total ← py_sum events.*2;
         average ← py_truediv total (py_len events);
         Ok (PyDict
               [("total_new_snow", PyNum (py_round total 1));
                ("snow_days", PyNum (py_len events));
                ("biggest_day",
                 PyDict [("amount", PyNum m);
                         ("date", p.1);
                         ("unit", PyStr "inches")]);
                ("average_per_snow_day", PyNum (py_round average 1));
                ("snowfall_events", PyList (event_obj <$> events))])).
Proof.
  split; [vm_compute; reflexivity|].
  intros num HN HL sd events Hev Hne.
  destruct (peak_exists events Hne) as (m & pre & p & post & Hm & Hp & Hrest).
  exists m, pre, p, post. destruct Hrest as (? & Hin & ? & ? & ?).
  split_and!; try done.
  unfold snowfall_analysis. destruct (py_sum _) as [total|e]; simpl; [|done].
  rewrite Hm. simpl. rewrite Hp. simpl.
  by rewrite (snowfall_amount_rounded sd events m).
Qed.

Lemma snowfall_summary_witness :
  let snow_depths : list (pyobj Q * Q) :=
    [(PyStr "2024-01-01", (10 # 1)%Q); (PyStr "2024-01-02", (14 # 1)%Q);
     (PyStr "2024-01-03", (14 # 1)%Q); (PyStr "2024-01-04", (20 # 1)%Q)] in
  let events : list (pyobj Q * Q) :=
    [(PyStr "2024-01-02", (4 # 1)%Q); (PyStr "2024-01-04", (6 # 1)%Q)] in
  snowfall_days snow_depths = Ok events ∧ events ≠ [] ∧
  ∃ m pre p post,
    events = pre ++ p :: post ∧
    m ∈ events.*2 ∧
    (∀ q, q ∈ events → py_gt q.2 m = false) ∧
    py_eq p.2 m = true ∧
    Forall (λ q, py_eq q.2 m = false) pre ∧
    snowfall_analysis events =
    total ← py_sum events.*2;
    average ← py_truediv total (py_len events);
    Ok (PyDict
          [("total_new_snow", PyNum (py_round total 1));
           ("snow_days", PyNum (py_len events));
           ("biggest_day",
            PyDict [("amount", PyNum m);
                    ("date", p.1);
                    ("unit", PyStr "inches")]);
           ("average_per_snow_day", PyNum (py_round average 1));
           ("snowfall_events", PyList (event_obj <$> events))]).
Proof.
  split; [vm_compute; reflexivity|]. split; [done|].
  apply (proj2 snowfall_summary Q _ _
           [(PyStr "2024-01-01", (10 # 1)%Q); (PyStr "2024-01-02", (14 # 1)%Q);
            (PyStr "2024-01-03", (14 # 1)%Q); (PyStr "2024-01-04", (20 # 1)%Q)]).
  - vm_compute; reflexivity.
  - done.
Defined.

(** ** C7 *)

(** C7, as stated, fails: without any depth observation the summary still
    carries the keys of the depth and of the snowfall sub-report, each
    with an empty dictionary. *)
Lemma empty_sub_reports_are_present :
  let summary :=
    analyze_snowpack_trends
      (Ok [station_of "713:CO:SNTL" [group "WTEQ" [entry "2024-01-01" (125 # 10)]]])
      "713:CO:SNTL" "2024-01-01" "2024-01-01" in
  obj_get "measurements" summary =
    Some (PyList [PyDict [("date", PyStr "2024-01-01");
                          ("WTEQ", PyNum (125 # 10)%Q)]])
  ∧ obj_get "snow_depth_analysis" summary ≠ None
  ∧ obj_get "snowfall_analysis" summary ≠ None.
Proof. split_and!; vm_compute; [reflexivity | discriminate..]. Qed.

(** C7, amended.  In a summary, the depth sub-report is the empty
    dictionary when no record holds a depth, and the snowfall sub-report
    is the empty dictionary when the depth series yields no event: the
    keys stay in the summary, with no statistics under them. *)
Theorem empty_sub_reports {num} `{PyNumber num}
    (t s e : string) (measurements : list (pydict (pyobj num))) summary :
  trend_summary t s e measurements = Ok summary →
  (Forall (no_value "SNWD") measurements →
     obj_get "snow_depth_analysis" summary = Some (PyDict []) ∧
     obj_get "snowfall_analysis" summary = Some (PyDict []))
  ∧ (∀ snow_depths,
       series "SNWD" measurements = Ok snow_depths →
       snowfall_days snow_depths = Ok [] →
       obj_get "snowfall_analysis" summary = Some (PyDict [])).
Proof.
  intros (sd & sw & ev & Hsd & _ & Hev & Hdepth & _ & Hsnow & _)%trend_summary_sub_reports.
  split.
  - intros Hnone. rewrite (series_no_value _ _ Hnone) in Hsd. injection Hsd as <-.
    vm_compute in Hev. injection Hev as <-. by rewrite Hdepth, Hsnow.
  - intros sd' Hsd' Hev'. rewrite Hsd in Hsd'. injection Hsd' as <-.
    rewrite Hev in Hev'. injection Hev' as ->. by rewrite Hsnow.
Qed.

Lemma empty_sub_reports_witness :
  let measurements : list (pydict (pyobj Q)) :=
    [[("date", PyStr "2024-01-01"); ("WTEQ", PyNum (125 # 10)%Q)]] in
  ∃ summary,
    trend_summary "713:CO:SNTL" "2024-01-01" "2024-01-01" measurements = Ok summary
    ∧ Forall (no_value "SNWD") measurements
    ∧ obj_get "snow_depth_analysis" summary = Some (PyDict [])
    ∧ obj_get "snowfall_analysis" summary = Some (PyDict []).
Proof.
  eexists. split; [vm_compute; reflexivity|].
  assert (Forall (no_value "SNWD")
            [[("date", PyStr "2024-01-01"); ("WTEQ", PyNum (125 # 10)%Q)]]) as Hnone
    by (repeat constructor; by left).
  split; [exact Hnone|].
  refine (proj1 (empty_sub_reports "713:CO:SNTL" "2024-01-01" "2024-01-01"
                   [[("date", PyStr "2024-01-01"); ("WTEQ", PyNum (125 # 10)%Q)]]
                   _ _) Hnone).
  vm_compute; reflexivity.
Defined.

(** ** C8 *)

(** C8, as stated, fails.  A group without element code is not skipped:
    its values enter the records under the empty code.  An entry without
    date is not skipped either: next to a dated entry it makes [sorted]
    raise, and the whole analysis answers with an error. *)
Lemma malformed_entries_are_not_skipped :
  let no_code : list (data_item Q) :=
    [{| stationElement := None; values := Some [entry "2024-01-01" (5 # 1)] |}] in
  let no_date : list (data_item Q) :=
    [group "SNWD" [{| date := None; value := Some (1 # 1)%Q |};
                   entry "2024-01-01" (2 # 1)]] in
  (normalize no_code =
     Ok [[("date", PyStr "2024-01-01"); (EmptyString, PyNum (5 # 1)%Q)]]
   ∧ normalize (drop_malformed no_code) = Ok []
   ∧ normalize no_code ≠ normalize (drop_malformed no_code))
  ∧ ((∃ e, normalize no_date = Raise e)
     ∧ normalize (drop_malformed no_date) =
         Ok [[("date", PyStr "2024-01-01"); ("SNWD", PyNum (2 # 1)%Q)]]
     ∧ ∃ msg,
         analyze_snowpack_trends (Ok [station_of "713:CO:SNTL" no_date])
           "713:CO:SNTL" "2024-01-01" "2024-01-01" =
         error_obj ("Error analyzing snowpack trends: " +:+ msg)).
Proof.
  split_and!; try (vm_compute; reflexivity).
  - vm_compute. discriminate.
  - eexists. vm_compute. reflexivity.
  - eexists. vm_compute. reflexivity.
Qed.

(** C8, amended.  When every entry carries a date, normalisation
    completes, whatever else is missing.  A group without element code is
    kept under the empty code: unless a later group has the empty code
    too, each of its entries has the record of its date among the
    records, and that record holds under the empty code the value of the
    first entry of the group with that date.  (What happens to an entry
    without date is left open here.) *)
Theorem groups_without_code_are_kept {num} `{PyNumber num}
    (pre : list (data_item num)) g post :
  Forall (λ h, Forall (λ v, is_Some (date v)) (item_values h)) (pre ++ g :: post) →
  lacks_code g →
  Forall (λ h, item_code h ≠ EmptyString) post →
  ∃ recs,
    normalize (pre ++ g :: post) = Ok recs ∧
    ∀ v, v ∈ item_values g →
      let r := build_record (element_data_of (pre ++ g :: post)) (date v) in
      r ∈ recs ∧
      dict_get EmptyString r = value_obj <$> first_entry (date v) (item_values g).
Proof.
  intros Hdated Hg Hpost.
  destruct (normalize_all_dated _ Hdated) as [recs Hrecs]. exists recs.
  split; [done|]. intros v Hv.
  assert (item_code g = EmptyString) as Hcode.
  { unfold lacks_code in Hg. unfold item_code.
    destruct (stationElement g) as [el|]; [by rewrite Hg | done]. }
  assert (dict_get EmptyString (element_data_of (pre ++ g :: post))
          = Some (item_values g)) as Hget.
  { rewrite element_data_of_get, filter_app, filter_cons, decide_True by done.
    assert (filter (λ h, item_code h = EmptyString) post = []) as ->.
    { clear -Hpost. induction Hpost as [|h post Hh _ IH]; [done|].
      by rewrite filter_cons, decide_False. }
    by rewrite last_snoc. }
  split.
  - by eapply normalize_record_of_entry.
  - rewrite build_record_get by apply element_data_of_NoDup.
    rewrite Hget. simpl. destruct (first_entry (date v) (item_values g)) eqn:Hf; [done|].
    apply first_entry_None in Hf. by eapply Forall_forall in Hf.
Qed.

Lemma groups_without_code_are_kept_witness :
  let g : data_item Q :=
    {| stationElement := None; values := Some [entry "2024-01-01" (5 # 1)] |} in
  Forall (λ h, Forall (λ v, is_Some (date v)) (item_values h)) [g] ∧
  lacks_code g ∧
  ∃ recs,
    normalize [g] = Ok recs ∧
    ∀ v, v ∈ item_values g →
      let r := build_record (element_data_of [g]) (date v) in
      r ∈ recs ∧
      dict_get EmptyString r = value_obj <$> first_entry (date v) (item_values g).
Proof.
  assert (Forall (λ h : data_item Q, Forall (λ v, is_Some (date v)) (item_values h))
            [{| stationElement := None;
                values := Some [entry "2024-01-01" (5 # 1)] |}]) as Hdated
    by (repeat constructor; by eexists).
  split; [exact Hdated|]. split; [exact I|].
  apply (groups_without_code_are_kept []
           {| stationElement := None; values := Some [entry "2024-01-01" (5 # 1)] |} []).
  - exact Hdated.
  - exact I.
  - constructor.
Defined.

(** ** C9 *)

(** C9, as stated, fails: the answer to an empty response has the shape
    of the answer to a failed request, a dictionary with the single key
    [error] holding a string. *)
Lemma no_data_has_error_shape :
  ¬ (∀ (station_triplet start_date end_date : string) (e : pyexc),
       shape (analyze_snowpack_trends (num := Q) (Ok [])
                station_triplet start_date end_date) ≠
       shape (analyze_snowpack_trends (num := Q) (Raise e)
                station_triplet start_date end_date)).
Proof.
  intros Hclaim.
  by apply (Hclaim "713:CO:SNTL" "2024-01-01" "2024-01-31"
              (TransportError "timed out")).
Qed.

(** C9, amended.  The function returns an object in every case, and
    never raises.  To an empty response it answers [{"error": "No data
    available for analysis: <triplet>"}]; to a response without a station
    of the requested triplet, [{"error": "No measurements found for
    analysis"}]; to an exception, [{"error": "Error analyzing snowpack
    trends: <message>"}].  The three answers have the same shape and
    differ in the text of the message only. *)
Theorem no_data_result {num} `{PyNumber num}
    (station_triplet start_date end_date : string) :
  analyze_snowpack_trends (num := num) (Ok []) station_triplet start_date end_date
    = error_obj ("No data available for analysis: " +:+ station_triplet)
  ∧ (∀ stations : list (station num),
       stations ≠ [] →
       Forall (λ st, stationTriplet st ≠ Some station_triplet) stations →
       analyze_snowpack_trends (Ok stations) station_triplet start_date end_date
         = error_obj "No measurements found for analysis")
  ∧ (∀ e,
       analyze_snowpack_trends (num := num) (Raise e)
         station_triplet start_date end_date
         = error_obj ("Error analyzing snowpack trends: " +:+ str_exc e))
  ∧ (∀ msg msg' : string,
       shape (error_obj (num := num) msg) = shape (error_obj (num := num) msg'))
  ∧ (∀ e,
       "No data available for analysis: " +:+ station_triplet ≠
         "Error analyzing snowpack trends: " +:+ str_exc e
       ∧ "No measurements found for analysis" ≠
         "Error analyzing snowpack trends: " +:+ str_exc e).
Proof.
  split_and!; try done.
  intros stations Hne Hall. unfold analyze_snowpack_trends. simpl.
  destruct stations as [|st stations]; [done|].
  unfold analyze_body. by rewrite parse_measurements_no_match.
Qed.

Lemma no_data_result_witness :
  analyze_snowpack_trends (num := Q)
    (Ok [station_of "1000:CO:SNTL" [group "SNWD" [entry "2024-01-01" (5 # 1)]]])
    "713:CO:SNTL" "2024-01-01" "2024-01-31"
  = error_obj "No measurements found for analysis".
Proof.
  apply (proj1 (proj2 (no_data_result (num := Q)
                         "713:CO:SNTL" "2024-01-01" "2024-01-31"))).
  - done.
  - repeat constructor. simpl. discriminate.
Defined.

(** ** C10 *)

(** C10.  The series kept for an element code is the values list of the
    last group that carries the code.  A group that is followed by a
    group with the same code has no influence at all: whatever values
    list it is given instead of its own, the records stay the same. *)
Theorem last_group_wins {num} `{PyNumber num}
    (pre : list (data_item num)) g post :
  (∀ code,
     dict_get code (element_data_of (pre ++ g :: post)) =
     item_values <$> last (filter (λ h, item_code h = code) (pre ++ g :: post)))
  ∧ (Exists (λ h, item_code h = item_code g) post →
     ∀ other_values,
       normalize (pre ++ g :: post) =
       normalize (pre ++ {| stationElement := stationElement g;
                            values := other_values |} :: post)).
Proof.
  split; [intros code; apply element_data_of_get|].
  intros Hex vs'. unfold normalize.
  by rewrite (element_data_of_shadowed pre g
                {| stationElement := stationElement g; values := vs' |} post).
Qed.

Lemma last_group_wins_witness :
  let early := group "SNWD" [entry "2024-01-01" (10 # 1); entry "2024-01-02" (12 # 1)] in
  let late := group "SNWD" [entry "2024-01-02" (20 # 1)] in
  normalize [early; late] =
    Ok [[("date", PyStr "2024-01-02"); ("SNWD", PyNum (20 # 1)%Q)]]
  ∧ ∀ other_values,
      normalize [early; late] =
      normalize [{| stationElement := stationElement early;
                    values := other_values |}; late].
Proof.
  split; [vm_compute; reflexivity|].
  apply (proj2 (last_group_wins []
                  (group "SNWD" [entry "2024-01-01" (10 # 1); entry "2024-01-02" (12 # 1)])
                  [group "SNWD" [entry "2024-01-02" (20 # 1)]])).
  by left.
Defined.
(** * Further properties of the analysis *)

Section MoreNormalize.
Context {num : Type} `{PyNumber num}.
Implicit Types (sd : list (data_item num)) (g : data_item num).
Implicit Types (recs : list (pydict (pyobj num))) (d : option string).
Implicit Types (ed : pydict (list (value_entry num))) (v : value_entry num).

Lemma elem_of_kept_entries sd v :
  v ∈ kept_entries sd ↔
  ∃ code vs, dict_get code (element_data_of sd) = Some vs ∧ v ∈ vs.
Proof.
  unfold kept_entries. rewrite list_elem_of_join. split.
  - intros (vs & Hv & Hvs). apply list_elem_of_fmap in Hvs as ([code vs'] & -> & Hin).
    exists code, vs'. split; [|done].
    apply dict_get_elem; [apply element_data_of_NoDup | done].
  - intros (code & vs & Hget%dict_get_Some_elem & Hv). exists vs. split; [done|].
    apply list_elem_of_fmap. by exists (code, vs).
Qed.

Lemma elem_of_dates_kept sd d :
  d ∈ dates_of (element_data_of sd) ↔ ∃ v, v ∈ kept_entries sd ∧ date v = d.
Proof.
  rewrite elem_of_dates_of. setoid_rewrite elem_of_kept_entries. split.
  - intros (code & vs & v & Hin & Hv & Hd). exists v. split; [|done].
    exists code, vs. split; [|done].
    apply dict_get_elem; [apply element_data_of_NoDup | done].
  - intros (v & (code & vs & Hget%dict_get_Some_elem & Hv) & Hd). eauto 10.
Qed.

(** X1.  Normalising the groups of a station raises exactly when the
    series it keeps hold an entry without date next to an entry with a
    date; a response all of whose entries lack the date is normalised
    without an exception. *)
Theorem normalize_raises_iff_undated_next_to_dated sd :
  (∃ e, normalize sd = Raise e) ↔
  Exists (λ v, date v = None) (kept_entries sd) ∧
  Exists (λ v, is_Some (date v)) (kept_entries sd).
Proof.
  assert ((∃ e, normalize sd = Raise e) ↔
          ∃ e, py_sorted (elements (dates_of (element_data_of sd))) = Raise e) as ->.
  { unfold normalize. destruct (py_sorted _); simpl; split; intros [e' He]; by eauto. }
  rewrite py_sorted_Raise, elem_of_elements, !Exists_exists.
  set (X := dates_of (element_data_of sd)).
  change (length (elements X)) with (size X).
  split.
  - intros [Hsize Hnone]. split; [by apply elem_of_dates_kept|].
    assert (0 < size (X ∖ {[ None ]})) as Hpos.
    { rewrite size_difference by set_solver. rewrite size_singleton. lia. }
    apply size_pos_elem_of in Hpos as [d Hd].
    apply elem_of_difference in Hd as [Hd Hne].
    apply elem_of_dates_kept in Hd as (v & Hv & <-). exists v. split; [done|].
    destruct (date v); [by eexists | set_solver].
  - intros [(v & Hv & Hnone) (w & Hw & [s Hs])].
    assert (None ∈ X) as HN by (apply elem_of_dates_kept; eauto).
    assert (Some s ∈ X) as HS by (apply elem_of_dates_kept; eauto).
    split; [|done].
    assert (size ({[ None ]} ∪ {[ Some s ]} : gset (option string)) = 2) as <-.
    { rewrite size_union by set_solver. by rewrite !size_singleton. }
    apply subseteq_size. set_solver.
Qed.

(** Without any entry there is no record. *)
Lemma normalize_no_entries sd :
  kept_entries sd = [] → normalize sd = Ok [].
Proof.
  intros Hnone.
  assert (dates_of (element_data_of sd) = ∅) as Hempty.
  { apply set_eq. intros d. rewrite elem_of_dates_kept, Hnone.
    split; [by intros (? & ?%elem_of_nil & _) | set_solver]. }
  unfold normalize. by rewrite Hempty, elements_empty.
Qed.

Lemma build_record_keys ed d :
  NoDup (dict_keys (build_record ed d)) ∧
  "date" ∈ dict_keys (build_record ed d) ∧
  ∀ k, k ∈ dict_keys (build_record ed d) → k = "date" ∨ k ∈ dict_keys ed.
Proof.
  unfold build_record.
  assert (∀ (rec : pydict (pyobj num)),
    NoDup (dict_keys rec) → "date" ∈ dict_keys rec →
    let r := foldl (λ rec '(code, vs), scan_values d code vs rec) rec ed in
    NoDup (dict_keys r) ∧ "date" ∈ dict_keys r ∧
    ∀ k, k ∈ dict_keys r → k ∈ dict_keys rec ∨ k ∈ dict_keys ed) as Hgen.
  { induction ed as [|[code vs] ed IH]; intros rec Hnd Hdate; simpl.
    - split_and!; [done..|]. by left.
    - rewrite scan_values_first_entry.
      destruct (first_entry d vs) as [v|].
      + destruct (IH (dict_set code (value_obj v) rec)) as (? & ? & Hk).
        * by apply dict_set_NoDup.
        * rewrite dict_keys_set. case_decide; [done|]. apply elem_of_app. by left.
        * split_and!; [done..|]. intros k Hin. apply Hk in Hin as [Hin|Hin].
          -- rewrite dict_keys_set in Hin. case_decide; [by left|].
             apply elem_of_app in Hin as [?|Hin]; [by left|].
             apply list_elem_of_singleton in Hin as ->. right. left.
          -- right. by right.
      + destruct (IH rec Hnd Hdate) as (? & ? & Hk). split_and!; [done..|].
        intros k Hin. apply Hk in Hin as [?|?]; [by left|]. right. by right. }
  destruct (Hgen [("date", date_obj d)]) as (? & ? & Hk).
  - apply NoDup_singleton.
  - left.
  - split_and!; [done..|]. intros k Hin. apply Hk in Hin as [Hin|?]; [|by right].
    apply list_elem_of_singleton in Hin as ->. by left.
Qed.

End MoreNormalize.

Section MoreNormalize2.
Context {num : Type} `{PyNumber num}.
Implicit Types (sd : list (data_item num)) (g : data_item num).
Implicit Types (recs : list (pydict (pyobj num))) (d : option string).

Lemma normalize_length sd recs :
  normalize sd = Ok recs →
  length recs = length (remove_dups (date <$> kept_entries sd)).
Proof.
  intros (ds & Hds & ->)%normalize_Ok. rewrite length_fmap.
  apply py_sorted_Ok in Hds as [Hperm _]; [|apply NoDup_elements].
  rewrite Hperm. apply Permutation_length.
  apply NoDup_Permutation; [apply NoDup_elements | apply NoDup_remove_dups|].
  intros d. rewrite elem_of_elements, elem_of_dates_kept, elem_of_remove_dups.
  rewrite list_elem_of_fmap. naive_solver.
Qed.

End MoreNormalize2.

(** X2.  Normalisation emits as many records as the kept series hold
    different dates.  The keys of a record are all different; [date] is
    one of them, and every other one is the element code of a group of
    the station. *)
Theorem one_record_per_date {num} `{PyNumber num}
    (station_data : list (data_item num)) recs :
  normalize station_data = Ok recs →
  length recs = length (remove_dups (date <$> kept_entries station_data)) ∧
  Forall (λ r, NoDup (dict_keys r) ∧ "date" ∈ dict_keys r ∧
               ∀ k, k ∈ dict_keys r →
                 k = "date" ∨ ∃ g, g ∈ station_data ∧ item_code g = k) recs.
Proof.
  intros Hn. split; [by apply normalize_length|].
  apply Forall_forall. intros r Hr.
  destruct (normalize_record_inv _ _ _ Hn Hr) as [d ->].
  destruct (build_record_keys (element_data_of station_data) d) as (? & ? & Hk).
  split_and!; [done..|]. intros k Hin. apply Hk in Hin as [?|Hin]; [by left|].
  right. by apply element_data_of_keys.
Qed.

Lemma one_record_per_date_witness :
  let station_data :=
    [group "SNWD" [entry "2024-01-02" (12 # 1); entry "2024-01-01" (10 # 1);
                   entry "2024-01-02" (13 # 1)];
     group "WTEQ" [entry "2024-01-03" (4 # 1)]] in
  let recs : list (pydict (pyobj Q)) :=
    [[("date", PyStr "2024-01-01"); ("SNWD", PyNum (10 # 1)%Q)];
     [("date", PyStr "2024-01-02"); ("SNWD", PyNum (12 # 1)%Q)];
     [("date", PyStr "2024-01-03"); ("WTEQ", PyNum (4 # 1)%Q)]] in
  normalize station_data = Ok recs ∧
  length recs = length (remove_dups (date <$> kept_entries station_data)) ∧
  Forall (λ r, NoDup (dict_keys r) ∧ "date" ∈ dict_keys r ∧
               ∀ k, k ∈ dict_keys r →
                 k = "date" ∨ ∃ g, g ∈ station_data ∧ item_code g = k) recs.
Proof.
  split; [vm_compute; reflexivity|].
  apply (one_record_per_date
           [group "SNWD" [entry "2024-01-02" (12 # 1); entry "2024-01-01" (10 # 1);
                          entry "2024-01-02" (13 # 1)];
            group "WTEQ" [entry "2024-01-03" (4 # 1)]]).
  vm_compute; reflexivity.
Defined.

(** ** Several stations in a response *)

Section MoreParse.
Context {num : Type} `{PyNumber num}.
Implicit Types (stations : list (station num)) (t : string).
Implicit Types (recs : list (pydict (pyobj num))).

Lemma parse_measurements_acc t stations recs :
  foldl (λ acc st,
           measurements ← acc;
           if decide (stationTriplet st = Some t)
           then recs ← normalize (default [] (data st));
                Ok (measurements ++ recs)
           else Ok measurements)
        (Ok recs) stations =
  more ← parse_measurements t stations; Ok (recs ++ more).
Proof.
  unfold parse_measurements. revert recs.
  induction stations as [|st stations IH] using rev_ind; intros recs.
  - simpl. by rewrite app_nil_r.
  - rewrite !foldl_app. simpl. rewrite IH.
    destruct (foldl _ (Ok []) stations) as [more|e]; simpl; [|done].
    case_decide; simpl; [|done].
    destruct (normalize _) as [new|e]; simpl; [|done]. by rewrite app_assoc.
Qed.

Lemma parse_measurements_cons t st stations :
  parse_measurements t (st :: stations) =
  if decide (stationTriplet st = Some t)
  then recs ← normalize (default [] (data st));
       more ← parse_measurements t stations; Ok (recs ++ more)
  else parse_measurements t stations.
Proof.
  unfold parse_measurements at 1. simpl. case_decide; simpl.
  - destruct (normalize _) as [recs|e]; simpl.
    + apply parse_measurements_acc.
    + clear. induction stations as [|s l IH] using rev_ind; [done|].
      by rewrite foldl_app; simpl; rewrite IH.
  - rewrite parse_measurements_acc. by destruct (parse_measurements t stations).
Qed.

Lemma parse_measurements_well_formed t stations recs :
  parse_measurements t stations = Ok recs → Forall well_formed_record recs.
Proof.
  revert recs. induction stations as [|st stations IH]; intros recs.
  - intros [= <-]. constructor.
  - rewrite parse_measurements_cons. case_decide; [|by apply IH].
    destruct (normalize _) as [new|e] eqn:Hn; simpl; [|done].
    destruct (parse_measurements t stations) as [more|e]; simpl; [|done].
    intros [= <-]. apply Forall_app. split; [|by apply IH].
    clear IH. apply normalize_Ok in Hn as (ds & _ & ->).
    apply Forall_fmap, Forall_true. intros d.
    (* The well-formedness of a built record does not need the laws. *)
    split.
    + rewrite build_record_get by apply element_data_of_NoDup.
      destruct (dict_get "date" _ ≫= first_entry d); [by eexists|].
      rewrite decide_True by done. by eexists.
    + intros key Hkey. rewrite build_record_get by apply element_data_of_NoDup.
      destruct (dict_get key _ ≫= first_entry d) as [v|].
      * unfold value_obj. by destruct (value v).
      * by rewrite decide_False.
Qed.

End MoreParse.

(** X3.  The measurements of a response are the records of its stations
    with the requested triplet, station after station in the order of the
    response; a station with another triplet contributes nothing, and the
    first station whose normalisation raises makes the whole parse
    raise. *)
Theorem measurements_of_matching_stations {num} `{PyNumber num}
    (t : string) (stations : list (station num)) :
  parse_measurements t stations =
  recss ← mapM (λ st, normalize (default [] (data st)))
             (filter (λ st, stationTriplet st = Some t) stations);
  Ok (concat recss).
Proof.
  induction stations as [|st stations IH]; [done|].
  rewrite parse_measurements_cons, filter_cons. case_decide; [|done].
  rewrite IH. csimpl.
  destruct (normalize _) as [recs|e]; simpl; [|done].
  by destruct (mapM _ _) as [recss|e].
Qed.

(** Two entries for the same station: their records follow each other,
    so the dates of the measurements start over. *)
Example station_listed_twice :
  parse_measurements "713:CO:SNTL"
    [station_of "713:CO:SNTL"
       [group "SNWD" [entry "2024-01-01" (10 # 1); entry "2024-01-02" (12 # 1)]];
     station_of "1000:CO:SNTL" [group "SNWD" [entry "2024-01-01" (99 # 1)]];
     station_of "713:CO:SNTL" [group "SNWD" [entry "2024-01-01" (11 # 1)]]] =
  Ok [[("date", PyStr "2024-01-01"); ("SNWD", PyNum (10 # 1)%Q)];
      [("date", PyStr "2024-01-02"); ("SNWD", PyNum (12 # 1)%Q)];
      [("date", PyStr "2024-01-01"); ("SNWD", PyNum (11 # 1)%Q)]].
Proof. vm_compute. reflexivity. Qed.

(** ** The report as a whole *)

Section MoreSummary.
Context {num : Type} `{PyNumber num}.
Implicit Types (measurements : list (pydict (pyobj num))).

Lemma set_if_nonempty_keys {A} key (l : list A)
    (report : list A → exc (pyobj num)) (result result' : pydict (pyobj num)) :
  key ∈ dict_keys result →
  set_if_nonempty key l report result = Ok result' →
  dict_keys result' = dict_keys result.
Proof.
  intros Hkey. unfold set_if_nonempty. destruct l as [|x l]; [by intros [= <-]|].
  destruct (report (x :: l)) as [sub|e]; simpl; [|done]. intros [= <-].
  rewrite dict_keys_set. by rewrite decide_True.
Qed.

(** The fields of a summary that do not depend on the statistics. *)
Lemma trend_summary_fields t s e measurements summary :
  trend_summary t s e measurements = Ok summary →
  ∃ result,
    summary = PyDict result ∧
    dict_keys result =
      ["station_triplet"; "period"; "total_records"; "snow_depth_analysis";
       "swe_analysis"; "snowfall_analysis"; "measurements"] ∧
    dict_get "station_triplet" result = Some (PyStr t) ∧
    dict_get "period" result =
      Some (PyDict [("start_date", PyStr s); ("end_date", PyStr e)]) ∧
    dict_get "total_records" result = Some (PyNum (py_len measurements)) ∧
    dict_get "measurements" result = Some (PyList (PyDict <$> measurements)).
Proof.
  unfold trend_summary.
  destruct (series "SNWD" measurements) as [sd|?]; simpl; [|done].
  destruct (set_if_nonempty "snow_depth_analysis" sd _ _) as [r1|?] eqn:H1; simpl; [|done].
  destruct (series "WTEQ" measurements) as [sw|?]; simpl; [|done].
  destruct (set_if_nonempty "swe_analysis" sw _ _) as [r2|?] eqn:H2; simpl; [|done].
  destruct (snowfall_days sd) as [ev|?] eqn:Hev; simpl; [|done].
  destruct (set_if_nonempty "snowfall_analysis" ev _ _) as [r3|?] eqn:H3; simpl; [|done].
  intros [= <-]. exists r3. split; [done|].
  assert (dict_keys r1 =
            ["station_triplet"; "period"; "total_records"; "snow_depth_analysis";
             "swe_analysis"; "snowfall_analysis"; "measurements"]) as K1.
  { refine (set_if_nonempty_keys _ _ _ _ _ _ H1).
    unfold dict_keys. simpl. set_solver. }
  assert (dict_keys r2 = dict_keys r1) as K2.
  { refine (set_if_nonempty_keys _ _ _ _ _ _ H2). rewrite K1. set_solver. }
  assert (dict_keys r3 = dict_keys r2) as K3.
  { refine (set_if_nonempty_keys _ _ _ _ _ _ H3). rewrite K2, K1. set_solver. }
  split; [by rewrite K3, K2, K1|].
  split_and!.
  all: rewrite (set_if_nonempty_get _ _ _ _ _ _ H3), decide_False by (by intros [? _]).
  all: rewrite (set_if_nonempty_get _ _ _ _ _ _ H2), decide_False by (by intros [? _]).
  all: by rewrite (set_if_nonempty_get _ _ _ _ _ _ H1), decide_False by (by intros [? _]).
Qed.

End MoreSummary.

(** X4.  Whenever the stations of a response are normalised into at least
    one record, and the numbers obey the laws, the function answers with
    a report, unless an addition, a subtraction or a division of two
    numbers raises.  The report is an object with exactly the seven keys
    of a summary, which holds the triplet and the period it was asked
    for, all the records under [measurements], and their number under
    [total_records], whatever the sub-reports hold.  The only other
    answer is the error object with the text of the exception of the
    arithmetic: no lookup, index, comparison or [max] of the analysis
    raises. *)
Theorem report_unless_arithmetic_raises {num} `{PyNumberLaws num}
    (station_triplet start_date end_date : string)
    (stations : list (station num)) measurements :
  parse_measurements station_triplet stations = Ok measurements →
  measurements ≠ [] →
  (∃ result,
     analyze_snowpack_trends (Ok stations) station_triplet start_date end_date
       = PyDict result ∧
     dict_keys result =
       ["station_triplet"; "period"; "total_records"; "snow_depth_analysis";
        "swe_analysis"; "snowfall_analysis"; "measurements"] ∧
     dict_get "station_triplet" result = Some (PyStr station_triplet) ∧
     dict_get "period" result =
       Some (PyDict [("start_date", PyStr start_date);
                     ("end_date", PyStr end_date)]) ∧
     dict_get "total_records" result = Some (PyNum (py_len measurements)) ∧
     dict_get "measurements" result = Some (PyList (PyDict <$> measurements)))
  ∨ (∃ e,
       raised_by_arithmetic num e ∧
       analyze_snowpack_trends (Ok stations) station_triplet start_date end_date
         = error_obj ("Error analyzing snowpack trends: " +:+ str_exc e)).
Proof.
  intros Hparse Hne.
  assert (analyze_snowpack_trends (Ok stations) station_triplet start_date end_date
          = match trend_summary station_triplet start_date end_date measurements with
            | Ok result => result
            | Raise e => error_obj ("Error analyzing snowpack trends: " +:+ str_exc e)
            end) as ->.
  { unfold analyze_snowpack_trends. simpl. unfold analyze_body.
    destruct stations as [|st stations].
    { injection Hparse as <-. done. }
    rewrite Hparse. simpl. by destruct measurements. }
  destruct (trend_summary_outcome station_triplet start_date end_date measurements)
    as [[summary Hsum]|(e & Hsum & He)];
    [by eapply parse_measurements_well_formed|..]; rewrite Hsum.
  - left. destruct (trend_summary_fields _ _ _ _ _ Hsum) as (result & -> & Hfields).
    by exists result.
  - right. by exists e.
Qed.

Lemma report_unless_arithmetic_raises_witness :
  let stations :=
    [station_of "713:CO:SNTL"
       [group "SNWD" [entry "2024-01-01" (45 # 1)];
        group "TOBS" [entry "2024-01-02" (28 # 1)]]] in
  let measurements : list (pydict (pyobj Q)) :=
    [[("date", PyStr "2024-01-01"); ("SNWD", PyNum (45 # 1)%Q)];
     [("date", PyStr "2024-01-02"); ("TOBS", PyNum (28 # 1)%Q)]] in
  (∃ result,
     analyze_snowpack_trends (Ok stations) "713:CO:SNTL" "2024-01-01" "2024-01-02"
       = PyDict result ∧
     dict_keys result =
       ["station_triplet"; "period"; "total_records"; "snow_depth_analysis";
        "swe_analysis"; "snowfall_analysis"; "measurements"] ∧
     dict_get "station_triplet" result = Some (PyStr "713:CO:SNTL") ∧
     dict_get "period" result =
       Some (PyDict [("start_date", PyStr "2024-01-01");
                     ("end_date", PyStr "2024-01-02")]) ∧
     dict_get "total_records" result = Some (PyNum (py_len measurements)) ∧
     dict_get "measurements" result = Some (PyList (PyDict <$> measurements)))
  ∨ (∃ e,
       raised_by_arithmetic Q e ∧
       analyze_snowpack_trends (Ok stations) "713:CO:SNTL" "2024-01-01" "2024-01-02"
         = error_obj ("Error analyzing snowpack trends: " +:+ str_exc e)).
Proof.
  intros stations measurements.
  apply (report_unless_arithmetic_raises (num:=Q)
           "713:CO:SNTL" "2024-01-01" "2024-01-02" stations measurements);
    [vm_compute; reflexivity|discriminate].
Defined.

(** X5.  When the response is not empty but none of its stations with the
    requested triplet holds a value entry (no such station, no group, no
    values, or empty values lists), the answer is the error object with
    the message that no measurements were found. *)
Theorem no_entries_no_measurements {num} `{PyNumber num}
    (station_triplet start_date end_date : string) (stations : list (station num)) :
  stations ≠ [] →
  Forall (λ st, stationTriplet st = Some station_triplet →
                kept_entries (default [] (data st)) = []) stations →
  analyze_snowpack_trends (Ok stations) station_triplet start_date end_date
    = error_obj "No measurements found for analysis".
Proof.
  intros Hne Hall.
  assert (parse_measurements station_triplet stations = Ok []) as Hparse.
  { clear Hne. induction Hall as [|st stations Hst _ IH]; [done|].
    rewrite parse_measurements_cons, IH. case_decide; [|done].
    by rewrite normalize_no_entries by auto. }
  unfold analyze_snowpack_trends. simpl. unfold analyze_body.
  destruct stations; [done|]. by rewrite Hparse.
Qed.

Lemma no_entries_no_measurements_witness :
  let stations : list (station Q) :=
    [station_of "1000:CO:SNTL" [group "SNWD" [entry "2024-01-01" (5 # 1)]];
     {| stationTriplet := Some "713:CO:SNTL"; data := None |};
     station_of "713:CO:SNTL"
       [group "SNWD" []; {| stationElement := None; values := None |}]] in
  stations ≠ [] ∧
  analyze_snowpack_trends (Ok stations) "713:CO:SNTL" "2024-01-01" "2024-01-31"
    = error_obj "No measurements found for analysis".
Proof.
  split; [done|].
  apply (no_entries_no_measurements "713:CO:SNTL" "2024-01-01" "2024-01-31"
           [station_of "1000:CO:SNTL" [group "SNWD" [entry "2024-01-01" (5 # 1)]];
            {| stationTriplet := Some "713:CO:SNTL"; data := None |};
            station_of "713:CO:SNTL"
              [group "SNWD" []; {| stationElement := None; values := None |}]]).
  - done.
  - repeat constructor; simpl; done.
Defined.

(** ** The sub-reports, further *)

Section MoreSeries.
Context {num : Type} `{PyNumber num}.
Implicit Types (measurements : list (pydict (pyobj num))).

Lemma series_length key measurements s :
  series key measurements = Ok s → length s ≤ length measurements.
Proof.
  revert s. induction measurements as [|r ms IH]; intros s; simpl.
  - by intros [= <-].
  - destruct (dict_get key r) as [[]|]; try done.
    + intros Hs. apply IH in Hs. lia.
    + destruct (dict_get "date" r); [|done].
      destruct (series key ms) as [rest|]; [|done]. simpl. intros [= <-].
      simpl. specialize (IH rest eq_refl). lia.
    + intros Hs. apply IH in Hs. lia.
Qed.

End MoreSeries.

Section MoreEvents.
Context {num : Type} `{PyNumber num}.

(** The dates of the events computed for a list of pairs are the dates
    of the later observations of the pairs. *)
Lemma events_dates (pairs : list ((pyobj num * num) * (pyobj num * num)))
    (events : list (pyobj num * num)) :
  mapM event_of pairs = Ok events → events.*1 = pairs.*2.*1.
Proof.
  intros HF%mapM_Ok. induction HF as [|pc ev pairs events Hev _ IH]; [done|].
  csimpl. rewrite IH. f_equal. unfold event_of in Hev.
  destruct (py_sub _ _); [|done]. by injection Hev as <-.
Qed.

Lemma tail_dates_adjacent (snow_depths : list (pyobj num * num)) :
  tail snow_depths.*1 = (adjacent snow_depths).*2.*1.
Proof.
  unfold adjacent. rewrite snd_zip.
  - by destruct snow_depths.
  - destruct snow_depths; simpl; lia.
Qed.

End MoreEvents.

(** X6.  Whenever the increase of every rising pair of a depth series can
    be computed, the loop returns its events; it never indexes out of
    range and never subtracts the depths of a pair that does not rise.
    The events are dated on the observations of the series other than
    the first, in the order of the series and each observation at most
    once; so there are fewer events than observations. *)
Theorem events_dated_on_later_observations {num} `{PyNumber num}
    (snow_depths : list (pyobj num * num)) :
  Forall (λ pc, ∃ increase, py_sub pc.2.2 pc.1.2 = Ok increase)
         (filter rising (adjacent snow_depths)) →
  ∃ events,
    snowfall_days snow_depths = Ok events ∧
    events.*1 `sublist_of` tail snow_depths.*1 ∧
    length events ≤ length snow_depths - 1.
Proof.
  intros Hsub.
  destruct (mapM_is_Ok event_of (filter rising (adjacent snow_depths)))
    as [events Hev].
  { eapply Forall_impl; [exact Hsub|]. intros pc [increase Hinc].
    unfold event_of. rewrite Hinc. by eexists. }
  exists events. split; [by rewrite snowfall_days_spec|].
  assert (events.*1 `sublist_of` tail snow_depths.*1) as Hdates.
  { rewrite (events_dates _ _ Hev), tail_dates_adjacent.
    do 2 apply fmap_sublist. apply sublist_filter. }
  split; [done|]. apply sublist_length in Hdates.
  rewrite length_fmap in Hdates.
  by destruct snow_depths; simpl in *; rewrite ?length_fmap, ?Nat.sub_0_r in *.
Qed.

Lemma events_dated_on_later_observations_witness :
  let snow_depths : list (pyobj Q * Q) :=
    [(PyStr "2024-01-01", (10 # 1)%Q); (PyStr "2024-01-02", (14 # 1)%Q);
     (PyStr "2024-01-03", (14 # 1)%Q); (PyStr "2024-01-04", (20 # 1)%Q)] in
  ∃ events,
    snowfall_days snow_depths = Ok events ∧
    events.*1 `sublist_of` tail snow_depths.*1 ∧
    length events ≤ length snow_depths - 1.
Proof.
  intros snow_depths.
  apply (events_dated_on_later_observations (num:=Q) snow_depths).
  vm_compute. repeat constructor; by eexists.
Defined.



Section MoreCounts.
Context {num : Type} `{PyNumber num}.
Implicit Types (measurements : list (pydict (pyobj num))).

Lemma trend_summary_depth_report t s e measurements summary snow_depths :
  trend_summary t s e measurements = Ok summary →
  series "SNWD" measurements = Ok snow_depths → snow_depths ≠ [] →
  ∃ sub, snow_depth_analysis snow_depths = Ok sub ∧
         obj_get "snow_depth_analysis" summary = Some sub.
Proof.
  intros Hsum Hsd Hne.
  assert (∃ sub, snow_depth_analysis snow_depths = Ok sub) as [sub Hsub].
  { unfold trend_summary in Hsum. rewrite Hsd in Hsum. simpl in Hsum.
    unfold set_if_nonempty at 3 in Hsum.
    destruct snow_depths as [|x l]; [done|].
    destruct (snow_depth_analysis (x :: l)); [by eexists | done]. }
  exists sub. split; [done|].
  apply trend_summary_sub_reports in Hsum
    as (sd & _ & _ & Hsd' & _ & _ & Hdepth & _).
  rewrite Hsd in Hsd'. injection Hsd' as <-.
  by rewrite Hdepth, decide_False, Hsub.
Qed.

End MoreCounts.

(** X8.  In a summary with at least one depth observation, the depth
    sub-report counts under [total_observations] the records that hold a
    depth and under [days_with_snow] those among them whose depth is
    greater than 0; the summary counts all records under
    [total_records].  So the first count is at most the second, and the
    second at most the third. *)
Theorem depth_counts {num} `{PyNumber num}
    (t s e : string) (measurements : list (pydict (pyobj num)))
    summary snow_depths :
  trend_summary t s e measurements = Ok summary →
  series "SNWD" measurements = Ok snow_depths → snow_depths ≠ [] →
  let days := length (filter (λ d, py_gt d (py_of_nat 0)) snow_depths.*2) in
  obj_get "snow_depth_analysis" summary ≫= obj_get "days_with_snow"
    = Some (PyNum (py_of_nat days)) ∧
  obj_get "snow_depth_analysis" summary ≫= obj_get "total_observations"
    = Some (PyNum (py_of_nat (length snow_depths))) ∧
  obj_get "total_records" summary
    = Some (PyNum (py_of_nat (length measurements))) ∧
  days ≤ length snow_depths ∧ length snow_depths ≤ length measurements.
Proof.
  intros Hsum Hsd Hne days.
  destruct (trend_summary_depth_report _ _ _ _ _ _ Hsum Hsd Hne)
    as (sub & Hsub & ->).
  destruct (trend_summary_fields _ _ _ _ _ Hsum) as (result & -> & _ & _ & _ & Htotal & _).
  unfold snow_depth_analysis in Hsub.
  destruct (py_max snow_depths.*2) as [m|]; simpl in Hsub; [|done].
  destruct (first_equal m snow_depths) as [p|]; simpl in Hsub; [|done].
  destruct (py_sum snow_depths.*2) as [total|]; simpl in Hsub; [|done].
  destruct (py_truediv total _) as [average|]; simpl in Hsub; [|done].
  injection Hsub as <-. simpl. split_and!.
  - done.
  - unfold py_len. by rewrite length_fmap.
  - done.
  - unfold days. rewrite <- (length_fmap snd snow_depths). apply length_filter.
  - by eapply series_length.
Qed.

Lemma depth_counts_witness :
  let measurements : list (pydict (pyobj Q)) :=
    [[("date", PyStr "2024-01-01"); ("SNWD", PyNum (0 # 1)%Q)];
     [("date", PyStr "2024-01-02"); ("WTEQ", PyNum (1 # 1)%Q)];
     [("date", PyStr "2024-01-03"); ("SNWD", PyNum (4 # 1)%Q)]] in
  let snow_depths : list (pyobj Q * Q) :=
    [(PyStr "2024-01-01", (0 # 1)%Q); (PyStr "2024-01-03", (4 # 1)%Q)] in
  ∃ summary,
    trend_summary "713:CO:SNTL" "2024-01-01" "2024-01-03" measurements = Ok summary ∧
    series "SNWD" measurements = Ok snow_depths ∧
    obj_get "snow_depth_analysis" summary ≫= obj_get "days_with_snow"
      = Some (PyNum (1 # 1)%Q) ∧
    obj_get "snow_depth_analysis" summary ≫= obj_get "total_observations"
      = Some (PyNum (2 # 1)%Q) ∧
    obj_get "total_records" summary = Some (PyNum (3 # 1)%Q).
Proof.
  eexists. split; [vm_compute; reflexivity|]. split; [vm_compute; reflexivity|].
  pose proof (depth_counts "713:CO:SNTL" "2024-01-01" "2024-01-03"
                [[("date", PyStr "2024-01-01"); ("SNWD", PyNum (0 # 1)%Q)];
                 [("date", PyStr "2024-01-02"); ("WTEQ", PyNum (1 # 1)%Q)];
                 [("date", PyStr "2024-01-03"); ("SNWD", PyNum (4 # 1)%Q)]]
                _ [(PyStr "2024-01-01", (0 # 1)%Q); (PyStr "2024-01-03", (4 # 1)%Q)]
                eq_refl eq_refl ltac:(done)) as (Hdays & Htotal & Hrecords & _).
  split_and!; [exact Hdays | exact Htotal | exact Hrecords].
Defined.

(** ** What a series depends on *)

Lemma StronglySorted_filter {A} (R : relation A) (P : A → Prop)
    `{!∀ x, Decision (P x)} (l : list A) :
  StronglySorted R l → StronglySorted R (filter P l).
Proof.
  induction 1 as [|x l Hs IH Hx]; [constructor|].
  rewrite filter_cons. case_decide; [|done].
  constructor; [done|]. apply Forall_forall. intros y Hy%list_elem_of_filter.
  eapply Forall_forall in Hx; [done | tauto].
Qed.

Lemma date_lt_asymmetric (a b : option string) : date_lt a b → date_lt b a → False.
Proof.
  destruct a as [x|], b as [y|]; simpl; try done.
  intros [Hxy Hnyx] [Hyx _]. done.
Qed.

#[global] Instance date_lt_irreflexive : Irreflexive date_lt.
Proof. intros a Ha. by apply (date_lt_asymmetric a a). Qed.


Lemma omap_filter_is_Some {A B} (f : A → option B) (P : A → Prop)
    `{!∀ x, Decision (P x)} (l : list A) :
  (∀ x, is_Some (f x) → P x) → omap f (filter P l) = omap f l.
Proof.
  intros HP. induction l as [|x l IH]; [done|].
  rewrite filter_cons. case_decide as Hx; csimpl; rewrite IH; [done|].
  destruct (f x) eqn:Hfx; [|done]. destruct Hx. apply HP. by rewrite Hfx.
Qed.

Section SeriesOfGroup.
Context {num : Type} `{PyNumber num}.
Implicit Types (sd : list (data_item num)) (g : data_item num).
Implicit Types (ed : pydict (list (value_entry num))) (vs : list (value_entry num)).
Implicit Types (ds : list (option string)) (code : string).

Lemma series_build_record ed ds code vs :
  NoDup (dict_keys ed) → "date" ∉ dict_keys ed → code ≠ "date" →
  dict_get code ed = Some vs →
  series code (build_record ed <$> ds) = Ok (omap (point_on vs) ds).
Proof.
  intros Hnd Hdate Hcode Hget. induction ds as [|d ds IH]; [done|].
  csimpl. rewrite !build_record_get by done. rewrite Hget. simpl.
  apply dict_get_None in Hdate. rewrite Hdate. simpl.
  unfold point_on at 1. destruct (first_entry d vs) as [v|]; simpl.
  - unfold value_obj. destruct (value v) as [n|]; simpl; [|done].
    by rewrite IH.
  - by rewrite decide_False.
Qed.

End SeriesOfGroup.

Section SeriesOfGroup2.
Context {num : Type} `{PyNumber num}.
Implicit Types (sd : list (data_item num)) (g : data_item num).
Implicit Types (recs : list (pydict (pyobj num))) (code : string).

(** The series of a code over the records of a station, through the
    dates of all kept series. *)
Lemma series_normalize sd recs code :
  code ≠ "date" → Forall (λ h, item_code h ≠ "date") sd →
  normalize sd = Ok recs →
  ∃ ds,
    StronglySorted date_lt ds ∧
    (∀ d, d ∈ ds ↔ ∃ v, v ∈ kept_entries sd ∧ date v = d) ∧
    series code recs =
    Ok (omap (point_on (default [] (dict_get code (element_data_of sd)))) ds).
Proof.
  intros Hcode Hdates (ds & Hds & ->)%normalize_Ok.
  assert ("date" ∉ dict_keys (element_data_of sd)) as Hnodate.
  { intros (g & Hg & Hc)%element_data_of_keys. by eapply Forall_forall in Hdates. }
  exists ds. pose proof Hds as [Hsorted _]%normalize_dates.
  split; [done|]. split.
  { intros d. apply py_sorted_Ok in Hds as [Hperm _]; [|apply NoDup_elements].
    by rewrite Hperm, elem_of_elements, elem_of_dates_kept. }
  destruct (dict_get code (element_data_of sd)) as [vs|] eqn:Hget; simpl.
  - by apply series_build_record; [apply element_data_of_NoDup|..].
  - rewrite series_no_value.
    + f_equal. clear. induction ds as [|d ds IH]; [done|]. csimpl. by rewrite <- IH.
    + apply Forall_fmap, Forall_true. intros d. left. simpl.
      rewrite build_record_get, Hget by apply element_data_of_NoDup.
      simpl. by rewrite decide_False.
Qed.

End SeriesOfGroup2.

(** X9.  Let no group of a station be coded [date].  Then the series that
    the analysis reads for an element code holds, in strictly ascending
    order of the dates, one point for each date of the entries kept for
    that code whose first entry on the date has a number: the date and
    that number.  The entries kept for other codes add no point. *)
Theorem series_of_kept_entries {num} `{PyNumber num}
    (station_data : list (data_item num)) recs code :
  code ≠ "date" → Forall (λ h, item_code h ≠ "date") station_data →
  normalize station_data = Ok recs →
  let vs := default [] (dict_get code (element_data_of station_data)) in
  ∃ ds,
    StronglySorted date_lt ds ∧
    (∀ d, d ∈ ds ↔ d ∈ date <$> vs) ∧
    series code recs = Ok (omap (point_on vs) ds).
Proof.
  intros Hcode Hdates Hn vs.
  destruct (series_normalize _ _ _ Hcode Hdates Hn) as (ds & Hsorted & Hin & Hseries).
  exists (filter (λ d, d ∈ date <$> vs) ds). split_and!.
  - by apply StronglySorted_filter.
  - intros d. rewrite list_elem_of_filter. split; [tauto|]. intros Hd.
    split; [done|]. apply Hin.
    apply list_elem_of_fmap in Hd as (v & -> & Hv). exists v. split; [|done].
    apply elem_of_kept_entries. unfold vs in Hv.
    destruct (dict_get code (element_data_of station_data)) as [vs'|] eqn:Hget;
      [|by apply elem_of_nil in Hv].
    by exists code, vs'.
  - rewrite Hseries. fold vs. f_equal. symmetry. apply omap_filter_is_Some.
    intros d [p Hp]. unfold point_on in Hp.
    destruct (first_entry d vs) as [v|] eqn:Hv; [|by simpl in Hp].
    apply first_entry_Some in Hv as [Hv <-]. apply list_elem_of_fmap. by exists v.
Qed.

Lemma series_of_kept_entries_witness :
  let station_data :=
    [group "TOBS" [entry "2024-01-02" (28 # 1); entry "2024-01-05" (30 # 1)];
     group "SNWD" [entry "2024-01-03" (12 # 1); entry "2024-01-01" (10 # 1);
                   {| date := Some "2024-01-04"; value := None |};
                   entry "2024-01-03" (99 # 1)]] in
  ∃ recs,
    normalize station_data = Ok recs ∧
    series "SNWD" recs =
      Ok [(PyStr "2024-01-01", (10 # 1)%Q); (PyStr "2024-01-03", (12 # 1)%Q)] ∧
    let vs := default [] (dict_get "SNWD" (element_data_of station_data)) in
    ∃ ds,
      StronglySorted date_lt ds ∧
      (∀ d, d ∈ ds ↔ d ∈ date <$> vs) ∧
      series "SNWD" recs = Ok (omap (point_on vs) ds).
Proof.
  eexists. split; [vm_compute; reflexivity|]. split; [vm_compute; reflexivity|].
  apply (series_of_kept_entries
           [group "TOBS" [entry "2024-01-02" (28 # 1); entry "2024-01-05" (30 # 1)];
            group "SNWD" [entry "2024-01-03" (12 # 1); entry "2024-01-01" (10 # 1);
                          {| date := Some "2024-01-04"; value := None |};
                          entry "2024-01-03" (99 # 1)]]).
  - done.
  - repeat constructor; done.
  - vm_compute; reflexivity.
Defined.



(** * Properties of the client and of the station tools *)

(** ** Strings *)

Lemma string_append_assoc (a b c : string) :
  (a +:+ b) +:+ c = a +:+ (b +:+ c).
Proof. induction a as [|x a IH]; [done|exact (f_equal (String x) IH)]. Qed.

Lemma string_append_nil_r (a : string) : a +:+ EmptyString = a.
Proof. induction a as [|x a IH]; [done|exact (f_equal (String x) IH)]. Qed.

Lemma py_lstrip_slashes m e :
  first_char e ≠ Some "/"%char → py_lstrip "/" (slashes m +:+ e) = e.
Proof.
  intros He. induction m as [|m IH]; simpl.
  - destruct e as [|a e]; simpl in *; [done|].
    case_decide; [naive_solver|done].
  - done.
Qed.

Lemma py_lstrip_none e :
  first_char e ≠ Some "/"%char → py_lstrip "/" e = e.
Proof. apply (py_lstrip_slashes 0). Qed.

Lemma py_rstrip_slashes n : py_rstrip "/" (slashes n) = EmptyString.
Proof. induction n as [|n IH]; simpl; [done|]. by rewrite IH. Qed.

Lemma py_rstrip_app_slashes b n :
  last_char b ≠ Some "/"%char → py_rstrip "/" (b +:+ slashes n) = b.
Proof.
  induction b as [|a b IH]; intros Hb; simpl.
  - apply py_rstrip_slashes.
  - destruct b as [|a' b].
    + simpl in *. rewrite IH by done.
      destruct (decide (a = "/"%char)); [naive_solver|done].
    + rewrite IH; [done|]. by simpl in *.
Qed.

Lemma length_py_split c s : length (py_split c s) = S (occurrences c s).
Proof.
  induction s as [|a s IH]; simpl; [done|].
  case_decide; simpl; [by rewrite IH|].
  destruct (py_split c s); simpl in *; lia.
Qed.

Lemma py_split_no_occurrence c s : occurrences c s = 0 → py_split c s = [s].
Proof.
  induction s as [|a s IH]; simpl; [done|].
  case_decide; [done|]. intros Hs. by rewrite IH.
Qed.

Lemma py_split_app c a rest :
  occurrences c a = 0 →
  py_split c (a +:+ String c rest) = a :: py_split c rest.
Proof.
  induction a as [|x a IH]; simpl.
  - intros _. by rewrite decide_True.
  - case_decide; [done|]. intros Ha. by rewrite IH.
Qed.

Lemma py_split_triplet id st net :
  occurrences ":" id = 0 → occurrences ":" st = 0 → occurrences ":" net = 0 →
  py_split ":" (id +:+ ":" +:+ st +:+ ":" +:+ net) = [id; st; net].
Proof.
  intros Hid Hst Hnet.
  change (py_split ":" (id +:+ String ":" (st +:+ String ":" net))
          = [id; st; net]).
  by rewrite !py_split_app, py_split_no_occurrence.
Qed.

(** ** The client *)

Section ClientProperties.
Context {num : Type} `{PyNumber num} `{PyText num}.

Lemma api_request {A} (http : SnotelAPIClient.transport (num:=num) A) endpoint p :
  first_char endpoint ≠ Some "/"%char →
  SnotelAPIClient._request api_client http endpoint p =
  http DEFAULT_TIMEOUT (API_BASE +:+ "/" +:+ endpoint) (default [] p).
Proof.
  intros He. unfold SnotelAPIClient._request.
  by rewrite (py_lstrip_none _ He).
Qed.

Lemma get_stations_state self (http : SnotelAPIClient.transport _)
    st net (lat lon radius : option num) :
  st ≠ EmptyString →
  SnotelAPIClient.get_stations self http (Some st) net lat lon radius =
  data ← http (SnotelAPIClient.timeout self)
            (SnotelAPIClient.base_url self +:+ "/stations")
            [("stationTriplets", PyStr ("*:" +:+ py_upper st +:+ ":" +:+ net))];
  Ok (stations_of data).
Proof. by destruct st. Qed.

Lemma get_stations_network self (http : SnotelAPIClient.transport _)
    state net (lat lon radius : option num) :
  state = None ∨ state = Some EmptyString →
  opt_bool lat && opt_bool lon && opt_bool radius = false →
  SnotelAPIClient.get_stations self http state net lat lon radius =
  data ← http (SnotelAPIClient.timeout self)
            (SnotelAPIClient.base_url self +:+ "/stations")
            [("networks", PyStr net)];
  Ok (stations_of data).
Proof.
  intros Hstate Hloc. unfold SnotelAPIClient.get_stations.
  destruct Hstate as [-> | ->];
    destruct lat as [lat|], lon as [lon|], radius as [radius|];
    simpl in Hloc; rewrite ?andb_false_r in Hloc; try done;
    by rewrite Hloc.
Qed.

End ClientProperties.

(** ** The station tools *)

Section ToolProperties.
Context {num : Type} `{PyNumber num} `{PyText num}.

Implicit Types http : SnotelAPIClient.transport (num:=num) (reply (Meta.station num)).

Lemma matching_station_None t (stations : list (Meta.station num)) :
  Forall (λ s, Meta.stationTriplet s ≠ Some t) stations →
  matching_station t stations = None.
Proof.
  induction 1 as [|s l Hs _ IH]; simpl; [done|]. by rewrite decide_False.
Qed.

Lemma matching_station_first t (pre post : list (Meta.station num)) s :
  Forall (λ s, Meta.stationTriplet s ≠ Some t) pre →
  Meta.stationTriplet s = Some t →
  matching_station t (pre ++ s :: post) = Some s.
Proof.
  intros Hpre Hs. induction Hpre as [|s' l Hs' _ IH]; simpl.
  - by rewrite decide_True.
  - by rewrite decide_False.
Qed.

(** The outcome of the request behind [get_station_info] for a triplet
    made of three parts. *)
Lemma get_station_info_reply http id st net :
  occurrences ":" id = 0 → occurrences ":" st = 0 → occurrences ":" net = 0 →
  st ≠ EmptyString →
  let t := id +:+ ":" +:+ st +:+ ":" +:+ net in
  get_station_info http t =
  match
    data ← http DEFAULT_TIMEOUT (API_BASE +:+ "/stations")
              [("stationTriplets", PyStr ("*:" +:+ py_upper st +:+ ":" +:+ net))];
    match matching_station t (stations_of data) with
    | None => Ok ("Station " +:+ t +:+ " not found")
    | Some station => station_description t station
    end
  with
  | Ok result => result
  | Raise e => "Error getting station info: " +:+ str_exc e
  end.
Proof.
  intros Hid Hst Hnet Hne t.
  assert (py_split ":" t = [id; st; net]) as Hsplit
    by by apply py_split_triplet.
  unfold get_station_info.
  rewrite decide_False by (rewrite Hsplit; simpl; lia).
  rewrite Hsplit. simpl.
  rewrite (get_stations_state _ _ _ _ _ _ _ Hne).
  by destruct (http _ _ _).
Qed.

(** The description of a station begins with its name in bold. *)
Lemma station_description_begins t (station : Meta.station num) text :
  station_description t station = Ok text →
  ∃ rest, text = "**" +:+ rest.
Proof.
  unfold station_description.
  destruct (py_format_f false 4 (default _ (Meta.latitude station)))
    as [lat_text|]; simpl; [|done].
  destruct (py_format_f false 4 (default _ (Meta.longitude station)))
    as [lon_text|]; simpl; [|done].
  destruct (py_format_f true 0 _) as [elev_text|]; simpl; [|done].
  intros [= <-]. destruct (str_bool _); rewrite ?string_append_assoc;
    eexists; reflexivity.
Qed.

Lemma find_snotel_stations_of_list http state latitude longitude radius_miles
    network stations :
  SnotelAPIClient.get_stations api_client http state network
    latitude longitude radius_miles = Ok stations →
  stations ≠ [] →
  find_snotel_stations http state latitude longitude radius_miles network =
  match
    result ← stations_heading state latitude longitude radius_miles
               (length stations);
    result ← stations_lines result (take 20 stations);
    Ok (if decide (20 < length stations) then
          result +:+ ("... and " +:+ pretty (length stations - 20)
                      +:+ " more stations" +:+ nl)
        else result)
  with
  | Ok result => result
  | Raise e => "Error finding stations: " +:+ str_exc e
  end.
Proof.
  intros Hget Hne. unfold find_snotel_stations. rewrite Hget.
  by destruct stations.
Qed.

Lemma station_lines_prefix result (station : Meta.station num) :
  station_lines result station =
  text ← station_lines EmptyString station; Ok (result +:+ text).
Proof.
  unfold station_lines.
  destruct (py_format_f false 4 (default _ (Meta.latitude station)))
    as [lat_text|]; simpl; [|done].
  destruct (py_format_f false 4 (default _ (Meta.longitude station)))
    as [lon_text|]; simpl; [|done].
  destruct (py_format_f true 0 _) as [elev_text|]; simpl; [|done].
  destruct (str_bool _); by rewrite ?string_append_assoc.
Qed.

Lemma stations_lines_Raise e (stations : list (Meta.station num)) :
  foldl (λ acc station, result ← acc; station_lines result station)
        (Raise e) stations = Raise e.
Proof. by induction stations. Qed.

Lemma stations_lines_prefix result (stations : list (Meta.station num)) :
  stations_lines result stations =
  text ← stations_lines EmptyString stations; Ok (result +:+ text).
Proof.
  unfold stations_lines.
  revert result. induction stations as [|s l IH]; intros result; simpl.
  - by rewrite string_append_nil_r.
  - rewrite (station_lines_prefix result).
    destruct (station_lines EmptyString s) as [text|e]; simpl.
    + rewrite IH, (IH text).
      destruct (foldl _ (Ok EmptyString) l) as [more|e]; simpl; [|done].
      by rewrite string_append_assoc.
    + by rewrite !stations_lines_Raise.
Qed.

(** Stations that are printed one by one are printed as a list. *)
Lemma stations_lines_Ok (stations : list (Meta.station num)) :
  Forall (λ station, ∃ text, station_lines EmptyString station = Ok text)
         stations →
  ∃ text, stations_lines EmptyString stations = Ok text.
Proof.
  unfold stations_lines.
  induction 1 as [|s l [text Htext] _ [more IH]]; simpl; [by eexists|].
  rewrite Htext.
  change (foldl ?f (Ok text) l) with (stations_lines text l).
  rewrite stations_lines_prefix. unfold stations_lines. rewrite IH.
  by eexists.
Qed.

End ToolProperties.

(** * Further properties: the client and the station tools *)

(** X11.  The URL of a request is the base URL, one slash and the
    endpoint, however many slashes end the base URL the client was made
    with and however many slashes begin the endpoint; the parameters are
    passed on, and missing parameters are an empty dictionary. *)
Theorem request_url_ignores_extra_slashes {num A}
    (http : SnotelAPIClient.transport (num:=num) A) b e n m timeout p :
  last_char b ≠ Some "/"%char → first_char e ≠ Some "/"%char →
  SnotelAPIClient._request (SnotelAPIClient.init (b +:+ slashes n) timeout)
    http (slashes m +:+ e) p =
  http timeout (b +:+ "/" +:+ e) (default [] p).
Proof.
  intros Hb He. unfold SnotelAPIClient._request, SnotelAPIClient.init. simpl.
  by rewrite (py_rstrip_app_slashes _ _ Hb), (py_lstrip_slashes _ _ He).
Qed.

Lemma request_url_ignores_extra_slashes_witness :
  SnotelAPIClient._request (num:=Q)
    (SnotelAPIClient.init ("http://host/v1" +:+ slashes 2) 30)
    (λ _ url _, Ok url) (slashes 1 +:+ "data") None =
  Ok "http://host/v1/data".
Proof.
  apply (request_url_ignores_extra_slashes (num:=Q) (λ _ url _, Ok url)
           "http://host/v1" "data" 2 1 30 None); by vm_compute.
Defined.

(** X12.  When a state is given, the stations are asked for by the
    pattern of any station number, the state in upper case and the
    network; latitude, longitude and radius are not sent, whatever they
    are. *)
Theorem state_search_ignores_location {num} `{PyText num} self
    (http : SnotelAPIClient.transport (reply (Meta.station num)))
    st net (lat lon radius : option num) :
  st ≠ EmptyString →
  SnotelAPIClient.get_stations self http (Some st) net lat lon radius =
  data ← http (SnotelAPIClient.timeout self)
            (SnotelAPIClient.base_url self +:+ "/stations")
            [("stationTriplets", PyStr ("*:" +:+ py_upper st +:+ ":" +:+ net))];
  Ok (stations_of data).
Proof. apply get_stations_state. Qed.

Lemma state_search_ignores_location_witness :
  let st := station_named "713:CO:SNTL" "Red Mountain Pass"
              (3789 # 100) (-10771 # 100) 11080 "CO" "SNTL" "San Juan" in
  SnotelAPIClient.get_stations api_client (answering "*:CO:SNTL" [st])
    (Some "co") "SNTL" (Some (40 # 1)%Q) (Some (-105 # 1)%Q) (Some (50 # 1)%Q)
  = Ok [st].
Proof.
  intros st.
  by rewrite (state_search_ignores_location api_client _ "co" "SNTL").
Defined.

(** X13.  Without a state, the location is sent only when latitude,
    longitude and radius are all given and all different from zero:
    if one of them is missing or is 0 (a place on the equator or on the
    prime meridian, a radius of 0), the request names the network alone
    and the service is asked for all its stations. *)
Theorem zero_coordinate_searches_whole_network {num} `{PyText num} self
    (http : SnotelAPIClient.transport (reply (Meta.station num)))
    state net (lat lon radius : option num) :
  state = None ∨ state = Some EmptyString →
  opt_bool lat && opt_bool lon && opt_bool radius = false →
  SnotelAPIClient.get_stations self http state net lat lon radius =
  data ← http (SnotelAPIClient.timeout self)
            (SnotelAPIClient.base_url self +:+ "/stations")
            [("networks", PyStr net)];
  Ok (stations_of data).
Proof. apply get_stations_network. Qed.

Lemma zero_coordinate_searches_whole_network_witness :
  SnotelAPIClient.get_stations api_client
    (λ _ _ p, Ok (ReplyList (if decide (dict_keys p = ["networks"])
                             then [station_named "1:CO:SNTL" "" 0 0 0 "" "" ""]
                             else [])))
    None "SNTL" (Some 0%Q) (Some (-105 # 1)%Q) (Some (50 # 1)%Q)
  = Ok [station_named "1:CO:SNTL" "" 0 0 0 "" "" ""].
Proof.
  rewrite (zero_coordinate_searches_whole_network api_client _ None "SNTL");
    [done|by left|done].
Defined.

(** X14.  The heading of the list of stations names the place and the
    radius as soon as latitude and longitude are given and not zero.
    With a radius that is missing or 0 the request was nevertheless made
    for the whole network: whenever the numbers of the heading and of
    the stations listed are printed without an exception, the stations
    listed as within the radius of the place are those the service
    answered for the network alone. *)
Theorem location_header_without_location_search {num} `{PyNumber num}
    `{PyText num}
    (http : SnotelAPIClient.transport (reply (Meta.station num)))
    state latitude longitude radius_miles network data
    radius_text lat_text lon_text :
  state = None ∨ state = Some EmptyString →
  opt_bool latitude = true → opt_bool longitude = true →
  opt_bool radius_miles = false →
  http DEFAULT_TIMEOUT (API_BASE +:+ "/stations") [("networks", PyStr network)]
    = Ok data →
  stations_of data ≠ [] →
  str_opt radius_miles = Ok radius_text →
  str_opt latitude = Ok lat_text → str_opt longitude = Ok lon_text →
  Forall (λ station, ∃ text, station_lines EmptyString station = Ok text)
         (take 20 (stations_of data)) →
  ∃ rest,
    find_snotel_stations http state latitude longitude radius_miles network =
    "Found " +:+ pretty (length (stations_of data)) +:+ " SNOTEL stations"
    +:+ " within " +:+ radius_text +:+ " miles of ("
    +:+ lat_text +:+ ", " +:+ lon_text +:+ ")"
    +:+ ":" +:+ nl +:+ nl +:+ rest.
Proof.
  intros Hstate Hlat Hlon Hradius Hhttp Hne Hrt Hlt Hlot Hlines.
  assert (SnotelAPIClient.get_stations api_client http state network
            latitude longitude radius_miles = Ok (stations_of data)) as Hget.
  { rewrite get_stations_network;
      [|done|by rewrite Hradius, andb_false_r].
    change (SnotelAPIClient.timeout api_client) with DEFAULT_TIMEOUT.
    change (SnotelAPIClient.base_url api_client) with API_BASE.
    by rewrite Hhttp. }
  set (l := stations_of data) in *.
  destruct (stations_lines_Ok _ Hlines) as [body Hbody].
  exists (body +:+
          if decide (20 < length l)
          then "... and " +:+ pretty (length l - 20) +:+ " more stations" +:+ nl
          else EmptyString).
  rewrite (find_snotel_stations_of_list _ _ _ _ _ _ _ Hget Hne).
  assert (stations_heading state latitude longitude radius_miles (length l) =
          Ok ((("Found " +:+ pretty (length l) +:+ " SNOTEL stations")
               +:+ (" within " +:+ radius_text +:+ " miles of ("
                    +:+ lat_text +:+ ", " +:+ lon_text +:+ ")"))
              +:+ (":" +:+ nl +:+ nl))) as ->.
  { unfold stations_heading. rewrite Hlat, Hlon, Hrt, Hlt, Hlot.
    by destruct Hstate as [-> | ->]. }
  simpl. rewrite stations_lines_prefix, Hbody. simpl.
  case_decide; by rewrite ?string_append_assoc, ?string_append_nil_r.
Qed.

Lemma location_header_without_location_search_witness :
  let st := station_named "1:WA:SNTL" "Far away" (48 # 1) (-121 # 1) 5000
              "WA" "SNTL" "" in
  ∃ rest,
    find_snotel_stations (always (Ok (ReplyList [st]))) None
      (Some (3789 # 100)%Q) (Some (-10771 # 100)%Q) None "SNTL" =
    "Found " +:+ pretty 1 +:+ " SNOTEL stations"
    +:+ " within " +:+ "None" +:+ " miles of ("
    +:+ "37.89" +:+ ", " +:+ "-107.71" +:+ ")"
    +:+ ":" +:+ nl +:+ nl +:+ rest.
Proof.
  intros st.
  destruct (location_header_without_location_search (num:=Q)
              (always (Ok (ReplyList [st]))) None
              (Some (3789 # 100)%Q) (Some (-10771 # 100)%Q) None "SNTL"
              (ReplyList [st]) "None" "37.89" "-107.71")
    as [rest Hrest];
    [by left|reflexivity|reflexivity|reflexivity|reflexivity|discriminate
    |reflexivity|vm_compute; reflexivity|vm_compute; reflexivity| |].
  - apply Forall_cons. split; [|constructor].
    eexists. vm_compute. reflexivity.
  - exists rest. rewrite Hrest. reflexivity.
Defined.

(** X15.  A station triplet is rejected as invalid exactly when it does
    not hold two colons, and then without any request: the answer is the
    same whatever the service would say. *)
Theorem invalid_triplet_iff_not_two_colons {num} `{PyNumber num} `{PyText num}
    (http : SnotelAPIClient.transport (reply (Meta.station num)))
    (station_triplet : string) :
  get_station_info http station_triplet =
    "Invalid station triplet format. Expected format: 'id:state:network'"
  ↔ occurrences ":" station_triplet ≠ 2.
Proof.
  unfold get_station_info. rewrite length_py_split.
  case_decide as Hn; split; try done; try lia.
  intros Heq _. revert Heq.
  destruct (py_index _ 1) as [state|]; simpl; [|done].
  destruct (py_index _ 2) as [network|]; simpl; [|done].
  destruct (SnotelAPIClient.get_stations _ _ _ _ _ _ _) as [stations|];
    simpl; [|done].
  destruct (matching_station _ _) as [station|]; [|done].
  destruct (station_description _ _) as [text|] eqn:Htext; [|done].
  by apply station_description_begins in Htext as [rest ->].
Qed.

(** X16.  For a triplet of three parts with a state, the service is asked
    for the stations of the state in upper case and of the network, the
    station number not being sent; the station described is the first of
    the answer whose triplet is the requested one, character for
    character.  The answer is its description, or the error text of the
    exception that printing its latitude, longitude or elevation
    raises. *)
Theorem station_found_is_first_match {num} `{PyNumber num} `{PyText num}
    (http : SnotelAPIClient.transport (reply (Meta.station num)))
    id st net data pre s post :
  occurrences ":" id = 0 → occurrences ":" st = 0 → occurrences ":" net = 0 →
  st ≠ EmptyString →
  let t := id +:+ ":" +:+ st +:+ ":" +:+ net in
  http DEFAULT_TIMEOUT (API_BASE +:+ "/stations")
    [("stationTriplets", PyStr ("*:" +:+ py_upper st +:+ ":" +:+ net))]
    = Ok data →
  stations_of data = pre ++ s :: post →
  Forall (λ s', Meta.stationTriplet s' ≠ Some t) pre →
  Meta.stationTriplet s = Some t →
  get_station_info http t =
  match station_description t s with
  | Ok text => text
  | Raise e => "Error getting station info: " +:+ str_exc e
  end.
Proof.
  intros Hid Hst Hnet Hne t Hhttp Hdata Hpre Hs.
  rewrite (get_station_info_reply _ _ _ _ Hid Hst Hnet Hne).
  fold t. rewrite Hhttp. simpl. rewrite Hdata.
  by rewrite (matching_station_first _ _ _ _ Hpre Hs).
Qed.

Lemma station_found_is_first_match_witness :
  let other := station_named "680:CO:SNTL" "Park Cone" 0 0 0 "CO" "SNTL" "" in
  let first := station_named "713:CO:SNTL" "Red Mountain Pass"
                 (3789 # 100) (-10771 # 100) 11080 "CO" "SNTL" "San Juan" in
  let second := station_named "713:CO:SNTL" "Duplicate" 0 0 0 "CO" "SNTL" "" in
  station_description "713:CO:SNTL" first =
    Ok ("**Red Mountain Pass** (713:CO:SNTL)" +:+ nl +:+ nl +:+
        "• **Location**: 37.8900, -107.7100" +:+ nl +:+
        "• **Elevation**: 11,080 feet" +:+ nl +:+
        "• **State**: CO" +:+ nl +:+
        "• **Network**: SNTL" +:+ nl +:+
        "• **County**: San Juan" +:+ nl) ∧
  get_station_info (answering "*:CO:SNTL" [other; first; second])
    "713:CO:SNTL"
  = match station_description "713:CO:SNTL" first with
    | Ok text => text
    | Raise e => "Error getting station info: " +:+ str_exc e
    end.
Proof.
  intros other first second.
  split; [vm_compute; reflexivity|].
  apply (station_found_is_first_match (num:=Q) _ "713" "CO" "SNTL"
           (ReplyList [other; first; second]) [other] first [second]);
    try reflexivity; try discriminate.
  apply Forall_cons. split; [discriminate|constructor].
Defined.

(** X17.  When no station of the answer carries exactly the requested
    triplet, the tool reports that the station was not found.  The
    comparison is exact while the request is made in upper case, so a
    triplet written with a lower-case state asks for the right stations
    and finds none of them. *)
Theorem station_not_found {num} `{PyNumber num} `{PyText num}
    (http : SnotelAPIClient.transport (reply (Meta.station num)))
    id st net data :
  occurrences ":" id = 0 → occurrences ":" st = 0 → occurrences ":" net = 0 →
  st ≠ EmptyString →
  let t := id +:+ ":" +:+ st +:+ ":" +:+ net in
  http DEFAULT_TIMEOUT (API_BASE +:+ "/stations")
    [("stationTriplets", PyStr ("*:" +:+ py_upper st +:+ ":" +:+ net))]
    = Ok data →
  Forall (λ s, Meta.stationTriplet s ≠ Some t) (stations_of data) →
  get_station_info http t = "Station " +:+ t +:+ " not found".
Proof.
  intros Hid Hst Hnet Hne t Hhttp Hdata.
  rewrite (get_station_info_reply _ _ _ _ Hid Hst Hnet Hne).
  fold t. rewrite Hhttp. simpl.
  by rewrite (matching_station_None _ _ Hdata).
Qed.

Lemma station_not_found_witness :
  let red_mountain := station_named "713:CO:SNTL" "Red Mountain Pass"
                        (3789 # 100) (-10771 # 100) 11080 "CO" "SNTL" "San Juan" in
  get_station_info (answering "*:CO:SNTL" [red_mountain]) "713:co:SNTL"
  = "Station 713:co:SNTL not found".
Proof.
  intros red_mountain.
  by apply (station_not_found _ "713" "co" "SNTL" (ReplyList [red_mountain]));
    [..|repeat constructor].
Defined.

(** X18.  The stations after the twentieth influence the list of
    stations through their number alone: two answers of the same length
    that agree on their first twenty stations give the same text. *)
Theorem stations_beyond_twenty_only_counted {num} `{PyNumber num} `{PyText num}
    (http http' : SnotelAPIClient.transport (reply (Meta.station num)))
    state latitude longitude radius_miles network stations stations' :
  SnotelAPIClient.get_stations api_client http state network
    latitude longitude radius_miles = Ok stations →
  SnotelAPIClient.get_stations api_client http' state network
    latitude longitude radius_miles = Ok stations' →
  take 20 stations = take 20 stations' →
  length stations = length stations' →
  find_snotel_stations http state latitude longitude radius_miles network =
  find_snotel_stations http' state latitude longitude radius_miles network.
Proof.
  intros Hget Hget' Htake Hlen.
  destruct stations as [|s l], stations' as [|s' l']; try done.
  - unfold find_snotel_stations. by rewrite Hget, Hget'.
  - rewrite (find_snotel_stations_of_list _ _ _ _ _ _ _ Hget) by done.
    rewrite (find_snotel_stations_of_list _ _ _ _ _ _ _ Hget') by done.
    cbv zeta. by rewrite Htake, Hlen.
Qed.

Lemma stations_beyond_twenty_only_counted_witness :
  let st (n : nat) : Meta.station Q :=
    station_named (pretty n +:+ ":CO:SNTL") "" 0 0 0 "CO" "SNTL" "" in
  find_snotel_stations (always (Ok (ReplyList (st <$> seq 0 22))))
    (Some "CO") None None None "SNTL" =
  find_snotel_stations (always (Ok (ReplyList (st <$> seq 0 20 ++ [77; 78]))))
    (Some "CO") None None None "SNTL".
Proof.
  intros st.
  by apply (stations_beyond_twenty_only_counted _ _ _ _ _ _ _
              (st <$> seq 0 22) (st <$> seq 0 20 ++ [77; 78])).
Defined.

(** X19.  An answer that holds no station, be it an empty list, an
    object without the key [stations] or an object with an empty list
    under it, is no data: the list of stations says that none was found,
    and the analysis answers with the error object for a station without
    data. *)
Theorem answer_without_stations_is_no_data {num} `{PyNumber num} `{PyText num}
    (http : SnotelAPIClient.transport (reply (Meta.station num)))
    (http' : SnotelAPIClient.transport (reply (station num)))
    data data' state latitude longitude radius_miles network
    station_triplet start_date end_date :
  (∀ timeout url p, http timeout url p = Ok data) → stations_of data = [] →
  (∀ timeout url p, http' timeout url p = Ok data') → stations_of data' = [] →
  find_snotel_stations http state latitude longitude radius_miles network
    = "No SNOTEL stations found with the given criteria." ∧
  analyze_snowpack_trends
    (SnotelAPIClient.get_station_data api_client http'
       station_triplet start_date end_date None None)
    station_triplet start_date end_date
    = error_obj ("No data available for analysis: " +:+ station_triplet).
Proof.
  intros Hhttp Hdata Hhttp' Hdata'. split.
  - unfold find_snotel_stations, SnotelAPIClient.get_stations,
      SnotelAPIClient._request.
    rewrite Hhttp. simpl. by rewrite Hdata.
  - unfold SnotelAPIClient.get_station_data, SnotelAPIClient._request.
    rewrite Hhttp'. simpl. by rewrite Hdata'.
Qed.

Lemma answer_without_stations_is_no_data_witness :
  find_snotel_stations (always (Ok (ReplyObject None)))
    (Some "CO") None None (Some (50 # 1)%Q) "SNTL"
    = "No SNOTEL stations found with the given criteria." ∧
  analyze_snowpack_trends
    (SnotelAPIClient.get_station_data api_client
       (always (Ok (ReplyObject (Some []))))
       "713:CO:SNTL" "2024-01-01" "2024-01-31" None None)
    "713:CO:SNTL" "2024-01-01" "2024-01-31"
    = error_obj ("No data available for analysis: " +:+ "713:CO:SNTL").
Proof.
  by apply (answer_without_stations_is_no_data
              (always (Ok (ReplyObject None)))
              (always (Ok (ReplyObject (Some []))))
              (ReplyObject None) (ReplyObject (Some []))).
Defined.

(** X20.  An exception of the HTTP exchange never leaves a tool: the list
    of stations, the station description (for a triplet with two colons)
    and the analysis each answer with their own error text, which ends
    with the text of the exception. *)
Theorem transport_error_reported {num} `{PyNumber num} `{PyText num}
    (http : SnotelAPIClient.transport (reply (Meta.station num)))
    (http' : SnotelAPIClient.transport (reply (station num)))
    e state latitude longitude radius_miles network
    station_triplet start_date end_date :
  (∀ timeout url p, http timeout url p = Raise e) →
  (∀ timeout url p, http' timeout url p = Raise e) →
  find_snotel_stations http state latitude longitude radius_miles network
    = "Error finding stations: " +:+ str_exc e ∧
  (occurrences ":" station_triplet = 2 →
   get_station_info http station_triplet
     = "Error getting station info: " +:+ str_exc e) ∧
  analyze_snowpack_trends
    (SnotelAPIClient.get_station_data api_client http'
       station_triplet start_date end_date None None)
    station_triplet start_date end_date
    = error_obj ("Error analyzing snowpack trends: " +:+ str_exc e).
Proof.
  intros Hhttp Hhttp'. split_and!.
  - unfold find_snotel_stations, SnotelAPIClient.get_stations,
      SnotelAPIClient._request.
    by rewrite Hhttp.
  - intros Hn. unfold get_station_info.
    pose proof (length_py_split ":" station_triplet) as Hlen.
    rewrite Hn in Hlen. rewrite decide_False by lia.
    destruct (py_split ":" station_triplet) as [|a [|b [|c [|??]]]];
      try done.
    simpl. unfold SnotelAPIClient.get_stations, SnotelAPIClient._request.
    by rewrite Hhttp.
  - unfold SnotelAPIClient.get_station_data, SnotelAPIClient._request.
    by rewrite Hhttp'.
Qed.

Lemma transport_error_reported_witness :
  let e := TransportError "Client error '404 Not Found'" in
  find_snotel_stations (always (Raise e)) (Some "CO") None None None "SNTL"
    = "Error finding stations: Client error '404 Not Found'" ∧
  (occurrences ":" "713:CO:SNTL" = 2 →
   get_station_info (always (Raise e)) "713:CO:SNTL"
     = "Error getting station info: Client error '404 Not Found'") ∧
  analyze_snowpack_trends
    (SnotelAPIClient.get_station_data api_client (always (Raise e))
       "713:CO:SNTL" "2024-01-01" "2024-01-31" None None)
    "713:CO:SNTL" "2024-01-01" "2024-01-31"
    = error_obj "Error analyzing snowpack trends: Client error '404 Not Found'".
Proof.
  intros e.
  by apply (transport_error_reported (always (Raise e)) (always (Raise e)) e).
Defined.

(** X21.  The analysis asks the [data] endpoint of the service for the
    requested triplet and period, the four elements [SNWD], [WTEQ],
    [TOBS] and [PREC] joined by commas, the ordinal 1 and no duration;
    its result is the analysis of the stations of that one answer, and
    of nothing else the service could say. *)
Theorem analysis_request {num} `{PyNumber num}
    (http : SnotelAPIClient.transport (reply (station num)))
    station_triplet start_date end_date :
  analyze_snowpack_trends
    (SnotelAPIClient.get_station_data api_client http
       station_triplet start_date end_date None None)
    station_triplet start_date end_date =
  analyze_snowpack_trends
    (data ← http DEFAULT_TIMEOUT (API_BASE +:+ "/data")
              [("stationTriplets", PyStr station_triplet);
               ("elements", PyStr "SNWD,WTEQ,TOBS,PREC");
               ("beginDate", PyStr start_date);
               ("endDate", PyStr end_date);
               ("ordinal", PyStr "1");
               ("duration", PyNone)];
     Ok (stations_of data))
    station_triplet start_date end_date.
Proof.
  unfold SnotelAPIClient.get_station_data.
  by rewrite api_request.
Qed.
